(** * The retune queue and request handler of the bladeRF NIOS II firmware

    A shallow embedding of [pkt_retune.c]
    (hdl/fpga/ip/altera/nios_system/software/bladeRF_nios/src) and the
    properties of its ring buffer, its scheduler step and its request
    dispatcher.

    Conventions.  C integers are [Z] with the wrap-around of their type
    written out ([u8], [u32], [u64]).  The file-scope object [q] and the
    debug counter are fields of an explicit firmware state that every
    function takes and returns.  The array [q.entries] is a list that is read
    and updated by index. *)

From Stdlib Require Import ZArith Lia Bool.
From stdpp Require Import base numbers list.

Local Open Scope Z_scope.

(** ** Machine integers *)

Definition u8 (x : Z) : Z := x mod 2 ^ 8.
Definition u32 (x : Z) : Z := x mod 2 ^ 32.
Definition u64 (x : Z) : Z := x mod 2 ^ 64.

Definition is_u8 (x : Z) : Prop := 0 <= x < 2 ^ 8.

(** ** Data model *)

(** [#define RETUNE_QUEUE_MAX 32], [QUEUE_FULL 0xff], [QUEUE_EMPTY 0xfe]. *)
Definition RETUNE_QUEUE_MAX : Z := 32.
Definition QUEUE_FULL : Z := 0xff.
Definition QUEUE_EMPTY : Z := 0xfe.

(** [enum entry_state]; the enumerators are 0, 1, 2, 3 in this order. *)
Inductive entry_state : Type :=
  | ENTRY_STATE_INVALID
  | ENTRY_STATE_NEW
  | ENTRY_STATE_SCHEDULED
  | ENTRY_STATE_READY.

(** [bladerf_module] is an enumeration declared outside this file; a value of
    the type is any integer, which is what the [default:] arm of the switch in
    [pkt_retune] provides for. *)
Definition bladerf_module : Type := Z.

(** [struct lms_freq], with the members [pkt_retune.c] reads and writes. *)
Record lms_freq : Type := mk_lms_freq {
  nint : Z;
  nfrac : Z;
  freqsel : Z;
  vcocap : Z;
  vcocap_result : Z;
  flags : Z
}.

Record queue_entry : Type := mk_queue_entry {
  state : entry_state;
  module : bladerf_module;
  freq : lms_freq
}.

(** [static struct queue { uint8_t count, ins_idx, rem_idx; entries[32] } q]. *)
Record queue : Type := mk_queue {
  count : Z;
  ins_idx : Z;
  rem_idx : Z;
  entries : list queue_entry
}.

#[global] Instance entry_state_eq_dec : EqDecision entry_state.
Proof. solve_decision. Defined.
#[global] Instance lms_freq_eq_dec : EqDecision lms_freq.
Proof. solve_decision. Defined.
#[global] Instance queue_entry_eq_dec : EqDecision queue_entry.
Proof. solve_decision. Defined.
#[global] Instance queue_eq_dec : EqDecision queue.
Proof. solve_decision. Defined.

(** The slot of [q.entries] that index [i] designates.  The indices are
    [uint8_t], so never negative; an index past the array is outside the
    object in C, and here it designates no slot: a read finds nothing and a
    write changes nothing. *)
Definition slot (i : Z) : nat := Z.to_nat i.

(** ** The queue operations *)

(** [enqueue_retune]: the queue size after the operation, or [QUEUE_FULL].
    The three stores of lines 79-82 fill every member of the slot, so they
    are one write of a whole entry. *)
Definition enqueue_retune (f : lms_freq) (m : bladerf_module) (q : queue)
  : Z * queue :=
  if RETUNE_QUEUE_MAX <=? count q then (QUEUE_FULL, q)
  else
    let entries' :=
      <[slot (ins_idx q) := mk_queue_entry ENTRY_STATE_NEW m f]> (entries q) in
    let ins_idx' := u8 (Z.land (ins_idx q + 1) (RETUNE_QUEUE_MAX - 1)) in
    let count' := u8 (count q + 1) in
    (count', mk_queue count' ins_idx' (rem_idx q) entries').

(** [dequeue_retune]: the number of items left, or [QUEUE_EMPTY].

    The argument [e] is the object the caller's pointer designates ([None]
    for [NULL]); the second component of the result is that object after the
    call.  Line 103 is [memcpy(&e, &q.entries[q.rem_idx], sizeof(e[0]))]: the
    destination is [&e], the address of the pointer parameter itself, not [e],
    the object it points to.  The object of the caller is therefore not the
    destination of the copy and is returned as it was.  ([e] is not used
    after the copy; what the copy, which is longer than a pointer, does to
    the stack frame around [e] is outside this model.) *)
Definition dequeue_retune (e : option queue_entry) (q : queue)
  : Z * option queue_entry * queue :=
  if count q =? 0 then (QUEUE_EMPTY, e, q)
  else
    let rem_idx' := u8 (Z.land (rem_idx q + 1) (RETUNE_QUEUE_MAX - 1)) in
    let count' := u8 (count q - 1) in
    (count', e, mk_queue count' (ins_idx q) rem_idx' (entries q)).

(** [remove] as section 4.1 of the specification words it: with an [out]
    argument, the entry at the remove index is copied into it.  It is the
    reference against which [dequeue_retune] is compared. *)
Definition remove_as_specified (e : option queue_entry) (q : queue)
  : Z * option queue_entry * queue :=
  if count q =? 0 then (QUEUE_EMPTY, e, q)
  else
    let out :=
      match e with
      | Some old => Some (default old (entries q !! slot (rem_idx q)))
      | None => None
      end in
    let rem_idx' := u8 (Z.land (rem_idx q + 1) (RETUNE_QUEUE_MAX - 1)) in
    let count' := u8 (count q - 1) in
    (count', out, mk_queue count' (ins_idx q) rem_idx' (entries q)).

(** [peek_next_retune]: the entry at the removal index, [None] for [NULL]. *)
Definition peek_next_retune (q : queue) : option queue_entry :=
  if count q =? 0 then None else entries q !! slot (rem_idx q).

(** [pkt_retune_init]: [memset(&q, 0, sizeof(q))]. *)
Definition zero_freq : lms_freq := mk_lms_freq 0 0 0 0 0 0.
Definition zero_entry : queue_entry :=
  mk_queue_entry ENTRY_STATE_INVALID 0 zero_freq.
Definition pkt_retune_init : queue :=
  mk_queue 0 0 0 (replicate (Z.to_nat RETUNE_QUEUE_MAX) zero_entry).

(** ** Sequences of queue operations *)

(** A run of inserts, left to right, with the value each call returned. *)
Fixpoint enqueue_all (reqs : list (lms_freq * bladerf_module)) (q : queue)
  : list Z * queue :=
  match reqs with
  | [] => ([], q)
  | (f, m) :: reqs' =>
      let '(r, q1) := enqueue_retune f m q in
      let '(rs, q2) := enqueue_all reqs' q1 in
      (r :: rs, q2)
  end.

(** A run of removes; each element of [outs] is the [e] argument of one
    call.  The result pairs each return value with the caller's object after
    the call. *)
Fixpoint dequeue_all (outs : list (option queue_entry)) (q : queue)
  : list (Z * option queue_entry) * queue :=
  match outs with
  | [] => ([], q)
  | e :: outs' =>
      let '(r, e', q1) := dequeue_retune e q in
      let '(rs, q2) := dequeue_all outs' q1 in
      ((r, e') :: rs, q2)
  end.

(** The way [pkt_retune_work] consumes the queue: look at the head with
    [peek_next_retune], then drop it with [dequeue_retune(NULL)]. *)
Fixpoint drain_heads (n : nat) (q : queue) : list (option queue_entry) * queue :=
  match n with
  | O => ([], q)
  | S n' =>
      let h := peek_next_retune q in
      let '(_, _, q1) := dequeue_retune None q in
      let '(hs, q2) := drain_heads n' q1 in
      (h :: hs, q2)
  end.

(** The entry an insert of [(f, m)] stores. *)
Definition new_entry (r : lms_freq * bladerf_module) : queue_entry :=
  mk_queue_entry ENTRY_STATE_NEW r.2 r.1.

(** ** What the firmware takes from other translation units *)

(** The constants of the headers [pkt_retune.c] includes
    ([nios_pkt_retune.h], [lms.h], the libbladeRF module enumeration) and the
    build switch of line 33.  Their declarations are not part of this file, so
    the development is parametric in them. *)
Class Headers : Type := {
  BLADERF_MODULE_RX : bladerf_module;
  BLADERF_MODULE_TX : bladerf_module;
  NIOS_PKT_RETUNE_NOW : Z;
  NIOS_PKT_RETUNERESP_FLAG_SUCCESS : Z;
  NIOS_PKT_RETUNERESP_FLAG_TSVTUNE_VALID : Z;
  LMS_FREQ_FLAGS_LOW_BAND : Z;
  LMS_FREQ_FLAGS_FORCE_VCOCAP : Z;
  BLADERF_NIOS_DEBUG : bool
}.

(** What the response flags must satisfy to be two separate bits of the
    [uint8_t] flags byte: each fits the byte, each is non-zero, and they share
    no bit. *)
Record flags_separate `{Headers} : Prop := {
  success_fits : is_u8 NIOS_PKT_RETUNERESP_FLAG_SUCCESS;
  success_nonzero : NIOS_PKT_RETUNERESP_FLAG_SUCCESS <> 0;
  tsvtune_fits : is_u8 NIOS_PKT_RETUNERESP_FLAG_TSVTUNE_VALID;
  tsvtune_nonzero : NIOS_PKT_RETUNERESP_FLAG_TSVTUNE_VALID <> 0;
  flags_disjoint :
    Z.land NIOS_PKT_RETUNERESP_FLAG_SUCCESS
           NIOS_PKT_RETUNERESP_FLAG_TSVTUNE_VALID = 0
}.

(** The device primitives ([devices.h], [band_select.h], the LMS driver), as
    functions of a device state [HW].  Each returns what the C function
    returns and the device state after the call; the tuning primitive, which
    is handed a pointer to the frequency specification, also returns the
    specification as it left it.  The [dev] argument is [NULL] at every call
    and is omitted. *)
Class Devices (HW : Type) : Type := {
  time_tamer_read : bladerf_module -> HW -> Z * HW;
  lms_set_precalculated_frequency :
    bladerf_module -> lms_freq -> HW -> Z * lms_freq * HW;
  band_select : bladerf_module -> bool -> HW -> Z * HW
}.

(** The decoded request: the outputs of [nios_pkt_retune_unpack]. *)
Record retune_req : Type := mk_retune_req {
  req_module : bladerf_module;
  req_timestamp : Z;
  req_nint : Z;
  req_nfrac : Z;
  req_freqsel : Z;
  req_vcocap : Z;
  req_low_band : bool;
  req_quick_tune : bool
}.

(** The response: the arguments of [nios_pkt_retune_resp_pack]. *)
Record retune_resp : Type := mk_retune_resp {
  resp_duration : Z;
  resp_vcocap_result : Z;
  resp_flags : Z
}.

(** The state the functions of the file act on: the devices, the queue [q]
    and the debug counter [pkt_retune_error_count]. *)
Record nios (HW : Type) : Type := mk_nios {
  dev : HW;
  q : queue;
  pkt_retune_error_count : Z
}.
Arguments mk_nios {HW} _ _ _.
Arguments dev {HW} _.
Arguments q {HW} _.
Arguments pkt_retune_error_count {HW} _.

(** A flag of the response is set when all its bits are, clear when none is. *)
Definition flag_set (fl flag : Z) : Prop := Z.land fl flag = flag.
Definition flag_clear (fl flag : Z) : Prop := Z.land fl flag = 0.

Section Firmware.
Context {hdr : Headers} {HW : Type} {devs : Devices HW}.

(** [INCREMENT_ERROR_COUNT()]: a [uint32_t] increment in a debug build,
    nothing otherwise. *)
Definition INCREMENT_ERROR_COUNT (s : nios HW) : nios HW :=
  if BLADERF_NIOS_DEBUG
  then mk_nios (dev s) (q s) (u32 (pkt_retune_error_count s + 1))
  else s.

(** Stores through the pointer [e] that [peek_next_retune] returned: they
    land in the slot at the removal index. *)
Definition set_head_state (st : entry_state) (qu : queue) : queue :=
  mk_queue (count qu) (ins_idx qu) (rem_idx qu)
    (alter (fun e => mk_queue_entry st (module e) (freq e))
           (slot (rem_idx qu)) (entries qu)).
Definition set_head_freq (f : lms_freq) (qu : queue) : queue :=
  mk_queue (count qu) (ins_idx qu) (rem_idx qu)
    (alter (fun e => mk_queue_entry (state e) (module e) f)
           (slot (rem_idx qu)) (entries qu)).

(** [dequeue_retune(NULL)] on the queue of the firmware state. *)
Definition drop_head (s : nios HW) : nios HW :=
  mk_nios (dev s) (dequeue_retune None (q s)).2 (pkt_retune_error_count s).

(** The [ENTRY_STATE_READY] arm of [pkt_retune_work], lines 149-163, up to
    but not including the dequeue: the device is tuned through [&e->freq],
    and the band is selected only when tuning returned 0, from the flags as
    tuning left them. *)
Definition apply_retune (e : queue_entry) (s : nios HW) : nios HW :=
  let '(status, f', d1) :=
    lms_set_precalculated_frequency (module e) (freq e) (dev s) in
  let s1 := mk_nios d1 (set_head_freq f' (q s)) (pkt_retune_error_count s) in
  if negb (status =? 0) then INCREMENT_ERROR_COUNT s1
  else
    let low_band := negb (Z.land (flags f') LMS_FREQ_FLAGS_LOW_BAND =? 0) in
    let '(status2, d2) := band_select (module e) low_band d1 in
    let s2 := mk_nios d2 (q s1) (pkt_retune_error_count s1) in
    if negb (status2 =? 0) then INCREMENT_ERROR_COUNT s2 else s2.

(** [pkt_retune_work]. *)
Definition pkt_retune_work (s : nios HW) : nios HW :=
  match peek_next_retune (q s) with
  | None => s
  | Some e =>
      match state e with
      | ENTRY_STATE_NEW =>
          mk_nios (dev s) (set_head_state ENTRY_STATE_SCHEDULED (q s))
                  (pkt_retune_error_count s)
      | ENTRY_STATE_SCHEDULED => s
      | ENTRY_STATE_READY => drop_head (apply_retune e s)
      | ENTRY_STATE_INVALID => INCREMENT_ERROR_COUNT s
      end
  end.

(** Lines 186-200 of [pkt_retune]: the frequency specification built from the
    request. *)
Definition request_freq (b : retune_req) : lms_freq :=
  let fl := if req_low_band b then u8 LMS_FREQ_FLAGS_LOW_BAND else 0 in
  let fl :=
    if req_quick_tune b then u8 (Z.lor fl LMS_FREQ_FLAGS_FORCE_VCOCAP) else fl in
  mk_lms_freq (req_nint b) (req_nfrac b) (req_freqsel b) (req_vcocap b) 0xff fl.

(** The label [out:] of [pkt_retune], lines 241-246. *)
Definition respond (status : Z) (fl : Z) (retune_duration : Z) (f : lms_freq)
  : retune_resp :=
  let fl :=
    if negb (status =? 0)
    then u8 (Z.land fl (Z.lnot NIOS_PKT_RETUNERESP_FLAG_SUCCESS))
    else fl in
  mk_retune_resp retune_duration (vcocap_result f) fl.

(** [pkt_retune], on the decoded request; the result is the response handed
    to [nios_pkt_retune_resp_pack] and the state after the call. *)
Definition pkt_retune (b : retune_req) (s : nios HW) : retune_resp * nios HW :=
  let module := req_module b in
  let fl := u8 NIOS_PKT_RETUNERESP_FLAG_SUCCESS in
  let f := request_freq b in
  if req_timestamp b =? NIOS_PKT_RETUNE_NOW then
    if (module =? BLADERF_MODULE_RX) || (module =? BLADERF_MODULE_TX) then
      let '(retune_start, d1) := time_tamer_read module (dev s) in
      let '(status, f1, d2) := lms_set_precalculated_frequency module f d1 in
      if negb (status =? 0)
      then (respond status fl 0 f1,
            mk_nios d2 (q s) (pkt_retune_error_count s))
      else
        let fl := u8 (Z.lor fl NIOS_PKT_RETUNERESP_FLAG_TSVTUNE_VALID) in
        let '(status, d3) := band_select module (req_low_band b) d2 in
        if negb (status =? 0)
        then (respond status fl 0 f1,
              mk_nios d3 (q s) (pkt_retune_error_count s))
        else
          let '(retune_end, d4) := time_tamer_read module d3 in
          let retune_duration := u64 (retune_end - retune_start) in
          (respond 0 fl retune_duration f1,
           mk_nios d4 (q s) (pkt_retune_error_count s))
    else (respond (-1) fl 0 f, s)
  else
    let '(queue_size, q') := enqueue_retune f module (q s) in
    let status := if queue_size =? QUEUE_FULL then -1 else 0 in
    (respond status fl 0 f, mk_nios (dev s) q' (pkt_retune_error_count s)).

End Firmware.

(** ** Concrete inputs

    A choice of the header constants and a bench double of the devices, on
    which the model is evaluated. *)

Definition bench_headers : Headers := {|
  BLADERF_MODULE_RX := 0;
  BLADERF_MODULE_TX := 1;
  NIOS_PKT_RETUNE_NOW := 0;
  NIOS_PKT_RETUNERESP_FLAG_SUCCESS := Z.shiftl 1 1;
  NIOS_PKT_RETUNERESP_FLAG_TSVTUNE_VALID := Z.shiftl 1 0;
  LMS_FREQ_FLAGS_LOW_BAND := Z.shiftl 1 0;
  LMS_FREQ_FLAGS_FORCE_VCOCAP := Z.shiftl 1 1;
  BLADERF_NIOS_DEBUG := true
|}.

(** The bench: a tick counter that advances by 5 at each read, the status
    each primitive will return, and the capacitance tuning reports. *)
Record bench : Type := mk_bench {
  ticks : Z;
  tune_status : Z;
  tune_vcocap : Z;
  band_status : Z
}.

Definition bench_devices : Devices bench := {|
  time_tamer_read _ b :=
    (ticks b,
     mk_bench (u64 (ticks b + 5)) (tune_status b) (tune_vcocap b) (band_status b));
  lms_set_precalculated_frequency _ f b :=
    (tune_status b,
     mk_lms_freq (nint f) (nfrac f) (freqsel f) (vcocap f) (tune_vcocap b) (flags f),
     b);
  band_select _ _ b := (band_status b, b)
|}.

Definition freq_a : lms_freq := mk_lms_freq 70 1000 44 20 0xff 1.
Definition freq_b : lms_freq := mk_lms_freq 71 2000 45 21 0xff 0.

(** A queue holding one entry, and a full one. *)
Definition one_queue : queue := (enqueue_retune freq_a 0 pkt_retune_init).2.
Definition full_queue : queue :=
  (enqueue_all (replicate 32 (freq_a, 0)) pkt_retune_init).2.

(** The head of [one_queue] after the timer has marked it ready. *)
Definition ready_queue : queue :=
  mk_queue 1 1 0
    (<[0%nat := mk_queue_entry ENTRY_STATE_READY 0 freq_a]> (entries pkt_retune_init)).

(** A queue of two entries whose head the timer has marked ready. *)
Definition ready_two_queue : queue :=
  mk_queue 2 2 0
    (<[0%nat := mk_queue_entry ENTRY_STATE_READY 0 freq_a]>
       (<[1%nat := new_entry (freq_b, 1)]> (entries pkt_retune_init))).

(** A queue of two entries, both marked ready. *)
Definition all_ready_queue : queue :=
  mk_queue 2 2 0
    (<[0%nat := mk_queue_entry ENTRY_STATE_READY 0 freq_a]>
       (<[1%nat := mk_queue_entry ENTRY_STATE_READY 1 freq_b]>
          (entries pkt_retune_init))).

Definition bench_ok : bench := mk_bench 100 0 37 0.
Definition bench_tune_fails : bench := mk_bench 100 (-1) 37 0.
Definition bench_band_fails : bench := mk_bench 100 0 37 (-1).

Definition req_now : retune_req := mk_retune_req 0 0 70 1000 44 20 true false.
Definition req_later : retune_req := mk_retune_req 1 5000 70 1000 44 20 true false.
Definition req_later_bad_module : retune_req :=
  mk_retune_req 7 5000 70 1000 44 20 false true.

(** ** The ring as a sequence *)

(** The queue invariant: 32 slots, at most 32 live entries, the removal index
    inside the array, and the insertion index [count] slots ahead of it,
    modulo the size of the ring. *)
Record queue_ok (qu : queue) : Prop := {
  ok_length : length (entries qu) = Z.to_nat RETUNE_QUEUE_MAX;
  ok_count : 0 <= count qu <= RETUNE_QUEUE_MAX;
  ok_rem : 0 <= rem_idx qu < RETUNE_QUEUE_MAX;
  ok_ins : ins_idx qu = (rem_idx qu + count qu) mod RETUNE_QUEUE_MAX
}.

(** The live entries, oldest first: the [count] slots from the removal index
    on, around the ring. *)
Definition contents (qu : queue) : list (option queue_entry) :=
  (fun k : nat =>
     entries qu !! slot ((rem_idx qu + Z.of_nat k) mod RETUNE_QUEUE_MAX))
    <$> seq 0 (Z.to_nat (count qu)).

(** ** Sequences of calls, and what they are compared with *)

(** A call of one of the two queue operations, with its arguments. *)
Inductive queue_op : Type :=
  | Insert (f : lms_freq) (m : bladerf_module)
  | Remove (e : option queue_entry).

(** The call on the ring: the value returned and the queue after it. *)
Definition run_op (op : queue_op) (qu : queue) : Z * queue :=
  match op with
  | Insert f m => enqueue_retune f m qu
  | Remove e => ((dequeue_retune e qu).1.1, (dequeue_retune e qu).2)
  end.

Fixpoint run_ops (ops : list queue_op) (qu : queue) : list Z * queue :=
  match ops with
  | [] => ([], qu)
  | op :: ops' =>
      let r := run_op op qu in
      let rs := run_ops ops' r.2 in
      (r.1 :: rs.1, rs.2)
  end.

(** The same call on a plain list of at most 32 entries, oldest first: an
    insert appends unless the list is full, a remove drops the first
    element unless the list is empty, and each returns the length after the
    call or the code of the refusal.  The ring is compared with it. *)
Definition fifo_op (op : queue_op) (l : list queue_entry)
  : Z * list queue_entry :=
  match op with
  | Insert f m =>
      if RETUNE_QUEUE_MAX <=? Z.of_nat (length l) then (QUEUE_FULL, l)
      else (Z.of_nat (length l) + 1, l ++ [new_entry (f, m)])
  | Remove _ =>
      match l with
      | [] => (QUEUE_EMPTY, [])
      | _ :: l' => (Z.of_nat (length l'), l')
      end
  end.

Fixpoint fifo_ops (ops : list queue_op) (l : list queue_entry)
  : list Z * list queue_entry :=
  match ops with
  | [] => ([], l)
  | op :: ops' =>
      let r := fifo_op op l in
      let rs := fifo_ops ops' r.2 in
      (r.1 :: rs.1, rs.2)
  end.

(** The two entry points of the file, as the firmware calls them: a request
    packet handed to [pkt_retune], or one turn of the polling loop in
    [pkt_retune_work]. *)
Inductive event : Type :=
  | Request (b : retune_req)
  | Work.

Section Driver.
Context {hdr : Headers} {HW : Type} {devs : Devices HW}.

Definition handle (ev : event) (s : nios HW) : nios HW :=
  match ev with
  | Request b => (pkt_retune b s).2
  | Work => pkt_retune_work s
  end.

Fixpoint run_events (evs : list event) (s : nios HW) : nios HW :=
  match evs with
  | [] => s
  | ev :: evs' => run_events evs' (handle ev s)
  end.

(** The requests of a run that take the deferred branch, counted, and the
    run without them and without the polling turns. *)
Definition is_deferred (ev : event) : bool :=
  match ev with
  | Request b => negb (req_timestamp b =? NIOS_PKT_RETUNE_NOW)
  | Work => false
  end.

Fixpoint n_deferred (evs : list event) : Z :=
  match evs with
  | [] => 0
  | ev :: evs' => (if is_deferred ev then 1 else 0) + n_deferred evs'
  end.

Fixpoint immediate_only (evs : list event) : list event :=
  match evs with
  | [] => []
  | Request b :: evs' =>
      if req_timestamp b =? NIOS_PKT_RETUNE_NOW
      then Request b :: immediate_only evs'
      else immediate_only evs'
  | Work :: evs' => immediate_only evs'
  end.

(** What lines 152-159 of [pkt_retune_work] do to the devices for a ready
    entry [e]: tuning, then band selection unless tuning failed. *)
Definition retune_devices (d : HW) (e : queue_entry) : HW :=
  let '(status, f', d1) :=
    lms_set_precalculated_frequency (module e) (freq e) d in
  if negb (status =? 0) then d1
  else
    (band_select (module e)
       (negb (Z.land (flags f') LMS_FREQ_FLAGS_LOW_BAND =? 0)) d1).2.

(** The state after [pkt_retune_init] on a device state [d], the debug
    counter at its initial 0. *)
Definition boot (d : HW) : nios HW := mk_nios d pkt_retune_init 0.

End Driver.

(** What holds of the queue as long as no entry has been marked
    [ENTRY_STATE_READY]: nothing was ever removed, so the live entries are
    the first [count] slots, and each of them is new or scheduled. *)
Record never_ready (qu : queue) : Prop := {
  nr_length : length (entries qu) = Z.to_nat RETUNE_QUEUE_MAX;
  nr_rem : rem_idx qu = 0;
  nr_count : 0 <= count qu <= RETUNE_QUEUE_MAX;
  nr_ins : ins_idx qu = count qu mod RETUNE_QUEUE_MAX;
  nr_states : forall (i : nat) (e : queue_entry),
    entries qu !! i = Some e ->
    state e <> ENTRY_STATE_READY /\
    (Z.of_nat i < count qu -> state e <> ENTRY_STATE_INVALID)
}.

(** * Properties *)

(** Closed comparisons on the bench are settled by evaluation. *)
Ltac evaluated := cbv; first [ intuition congruence | lia ].

(** ** Arithmetic of the masks *)

Lemma mask_mod (x : Z) : Z.land x (RETUNE_QUEUE_MAX - 1) = x mod RETUNE_QUEUE_MAX.
Proof.
  change (RETUNE_QUEUE_MAX - 1) with (Z.ones 5).
  rewrite Z.land_ones by lia. reflexivity.
Qed.

Lemma u8_small (x : Z) : 0 <= x < 256 -> u8 x = x.
Proof. intros Hx. unfold u8. apply Z.mod_small. lia. Qed.

Lemma next_index (i : Z) :
  u8 (Z.land (i + 1) (RETUNE_QUEUE_MAX - 1)) = (i + 1) mod RETUNE_QUEUE_MAX.
Proof.
  rewrite mask_mod. apply u8_small.
  pose proof (Z.mod_pos_bound (i + 1) RETUNE_QUEUE_MAX) as Hb.
  unfold RETUNE_QUEUE_MAX in *. lia.
Qed.

(** ** One insert, one remove *)

Lemma enqueue_retune_room f m qu :
  0 <= count qu < RETUNE_QUEUE_MAX ->
  enqueue_retune f m qu =
    (count qu + 1,
     mk_queue (count qu + 1) ((ins_idx qu + 1) mod RETUNE_QUEUE_MAX) (rem_idx qu)
       (<[slot (ins_idx qu) := new_entry (f, m)]> (entries qu))).
Proof.
  intros Hc. unfold enqueue_retune.
  destruct (Z.leb_spec RETUNE_QUEUE_MAX (count qu)) as [Hfull|_]; [lia|].
  rewrite next_index, u8_small by (unfold RETUNE_QUEUE_MAX in Hc; lia).
  reflexivity.
Qed.

Lemma dequeue_retune_some e qu :
  0 < count qu < 256 ->
  dequeue_retune e qu =
    (count qu - 1, e,
     mk_queue (count qu - 1) (ins_idx qu) ((rem_idx qu + 1) mod RETUNE_QUEUE_MAX)
       (entries qu)).
Proof.
  intros Hc. unfold dequeue_retune.
  destruct (Z.eqb_spec (count qu) 0) as [H0|_]; [lia|].
  rewrite next_index, u8_small by lia. reflexivity.
Qed.

Lemma dequeue_retune_empty e qu :
  count qu = 0 -> dequeue_retune e qu = (QUEUE_EMPTY, e, qu).
Proof. intros Hc. unfold dequeue_retune. rewrite Hc. reflexivity. Qed.

(** ** Runs of inserts and removes *)

Lemma enqueue_all_room reqs : forall qu,
  0 <= count qu ->
  count qu + Z.of_nat (length reqs) <= RETUNE_QUEUE_MAX ->
  Forall (fun r => r <> QUEUE_FULL) (enqueue_all reqs qu).1 /\
  count (enqueue_all reqs qu).2 = count qu + Z.of_nat (length reqs) /\
  rem_idx (enqueue_all reqs qu).2 = rem_idx qu /\
  (reqs <> [] ->
   ins_idx (enqueue_all reqs qu).2 =
     (ins_idx qu + Z.of_nat (length reqs)) mod RETUNE_QUEUE_MAX).
Proof.
  induction reqs as [|[f m] reqs IH]; intros qu H0 Hroom; simpl in *.
  - repeat split; [constructor | lia | congruence].
  - rewrite enqueue_retune_room by lia.
    set (q1 := mk_queue _ _ _ _).
    destruct (IH q1) as (Hrs & Hcount & Hrem & Hins); [simpl; lia .. |].
    destruct (enqueue_all reqs q1) as [rs q2] eqn:Hrun. simpl in *.
    repeat split.
    + constructor; [|exact Hrs]. unfold QUEUE_FULL, RETUNE_QUEUE_MAX in *. lia.
    + lia.
    + exact Hrem.
    + intros _. destruct reqs as [|r reqs'].
      * simpl in Hrun. injection Hrun as _ <-. simpl. reflexivity.
      * rewrite Hins by discriminate.
        rewrite Z.add_mod_idemp_l by (unfold RETUNE_QUEUE_MAX; lia).
        f_equal. lia.
Qed.

Lemma dequeue_all_live outs : forall qu,
  Z.of_nat (length outs) <= count qu <= RETUNE_QUEUE_MAX ->
  Forall (fun d => d.1 <> QUEUE_EMPTY) (dequeue_all outs qu).1 /\
  count (dequeue_all outs qu).2 = count qu - Z.of_nat (length outs) /\
  ins_idx (dequeue_all outs qu).2 = ins_idx qu /\
  entries (dequeue_all outs qu).2 = entries qu /\
  (outs <> [] ->
   rem_idx (dequeue_all outs qu).2 =
     (rem_idx qu + Z.of_nat (length outs)) mod RETUNE_QUEUE_MAX).
Proof.
  induction outs as [|e outs IH]; intros qu Hlive; simpl in *.
  - repeat split; [constructor | lia | congruence].
  - rewrite dequeue_retune_some by (unfold RETUNE_QUEUE_MAX in *; lia).
    set (q1 := mk_queue _ _ _ _).
    destruct (IH q1) as (Hrs & Hcount & Hins & Hent & Hrem); [simpl; lia|].
    destruct (dequeue_all outs q1) as [rs q2] eqn:Hrun. simpl in *.
    repeat split.
    + constructor; [|exact Hrs].
      simpl. unfold QUEUE_EMPTY, RETUNE_QUEUE_MAX in *. lia.
    + lia.
    + exact Hins.
    + exact Hent.
    + intros _. destruct outs as [|e' outs'].
      * simpl in Hrun. injection Hrun as _ <-. simpl. reflexivity.
      * rewrite Hrem by discriminate.
        rewrite Z.add_mod_idemp_l by (unfold RETUNE_QUEUE_MAX; lia).
        f_equal. lia.
Qed.

(** C3.  On a queue whose count is 32, [enqueue_retune] returns [QUEUE_FULL]
    and the queue after the call is the queue before it: count, insertion
    index, removal index and every stored entry. *)
Theorem enqueue_full_unchanged (f : lms_freq) (m : bladerf_module) (qu : queue) :
  count qu = RETUNE_QUEUE_MAX ->
  (enqueue_retune f m qu).1 = QUEUE_FULL /\
  count (enqueue_retune f m qu).2 = count qu /\
  ins_idx (enqueue_retune f m qu).2 = ins_idx qu /\
  rem_idx (enqueue_retune f m qu).2 = rem_idx qu /\
  entries (enqueue_retune f m qu).2 = entries qu.
Proof.
  intros Hfull. unfold enqueue_retune. rewrite Hfull. simpl. auto.
Qed.

Lemma enqueue_full_unchanged_witness :
  (enqueue_retune freq_b 1 full_queue).1 = QUEUE_FULL /\
  count (enqueue_retune freq_b 1 full_queue).2 = count full_queue /\
  ins_idx (enqueue_retune freq_b 1 full_queue).2 = ins_idx full_queue /\
  rem_idx (enqueue_retune freq_b 1 full_queue).2 = rem_idx full_queue /\
  entries (enqueue_retune freq_b 1 full_queue).2 = entries full_queue.
Proof. apply (enqueue_full_unchanged freq_b 1 full_queue). reflexivity. Defined.

(** C9.  From a queue whose count is 0, 32 inserts all succeed, 32 removes
    that follow all succeed, and they leave the count at 0 and each index at
    its starting value reduced modulo 32: at the starting value itself when
    that was a slot of the ring. *)
Theorem fill_then_drain_returns
    (qu : queue) (reqs : list (lms_freq * bladerf_module))
    (outs : list (option queue_entry)) :
  count qu = 0 ->
  length reqs = Z.to_nat RETUNE_QUEUE_MAX ->
  length outs = Z.to_nat RETUNE_QUEUE_MAX ->
  let filled := enqueue_all reqs qu in
  let drained := dequeue_all outs filled.2 in
  Forall (fun r => r <> QUEUE_FULL) filled.1 /\
  Forall (fun d => d.1 <> QUEUE_EMPTY) drained.1 /\
  count drained.2 = 0 /\
  ins_idx drained.2 = ins_idx qu mod RETUNE_QUEUE_MAX /\
  rem_idx drained.2 = rem_idx qu mod RETUNE_QUEUE_MAX /\
  (0 <= ins_idx qu < RETUNE_QUEUE_MAX -> ins_idx drained.2 = ins_idx qu) /\
  (0 <= rem_idx qu < RETUNE_QUEUE_MAX -> rem_idx drained.2 = rem_idx qu).
Proof.
  intros Hempty Hreqs Houts filled drained.
  assert (Hn : Z.of_nat (Z.to_nat RETUNE_QUEUE_MAX) = RETUNE_QUEUE_MAX) by reflexivity.
  destruct (enqueue_all_room reqs qu) as (Hrs & Hcount & Hrem & Hins);
    [lia | rewrite Hreqs, Hn; lia |].
  fold filled in Hrs, Hcount, Hrem, Hins.
  destruct (dequeue_all_live outs filled.2) as (Hds & Hcount' & Hins' & _ & Hrem');
    [rewrite Houts, Hn, Hcount, Hreqs, Hn; lia |].
  fold drained in Hds, Hcount', Hins', Hrem'.
  assert (Hi : ins_idx drained.2 = ins_idx qu mod RETUNE_QUEUE_MAX).
  { rewrite Hins', Hins by (intros ->; discriminate).
    rewrite Hreqs, Hn. rewrite <- (Z.mul_1_l RETUNE_QUEUE_MAX) at 1.
    apply Z.mod_add. discriminate. }
  assert (Hr : rem_idx drained.2 = rem_idx qu mod RETUNE_QUEUE_MAX).
  { rewrite Hrem', Hrem by (intros ->; discriminate).
    rewrite Houts, Hn. rewrite <- (Z.mul_1_l RETUNE_QUEUE_MAX) at 1.
    apply Z.mod_add. discriminate. }
  repeat split; try assumption.
  - rewrite Hcount', Hcount, Hempty, Hreqs, Houts. lia.
  - intros Hslot. rewrite Hi. apply Z.mod_small. exact Hslot.
  - intros Hslot. rewrite Hr. apply Z.mod_small. exact Hslot.
Qed.

Lemma fill_then_drain_returns_witness :
  let filled := enqueue_all (replicate 32 (freq_a, 1)) pkt_retune_init in
  let drained := dequeue_all (replicate 32 None) filled.2 in
  Forall (fun r => r <> QUEUE_FULL) filled.1 /\
  Forall (fun d => d.1 <> QUEUE_EMPTY) drained.1 /\
  count drained.2 = 0 /\
  ins_idx drained.2 = ins_idx pkt_retune_init mod RETUNE_QUEUE_MAX /\
  rem_idx drained.2 = rem_idx pkt_retune_init mod RETUNE_QUEUE_MAX /\
  (0 <= ins_idx pkt_retune_init < RETUNE_QUEUE_MAX ->
   ins_idx drained.2 = ins_idx pkt_retune_init) /\
  (0 <= rem_idx pkt_retune_init < RETUNE_QUEUE_MAX ->
   rem_idx drained.2 = rem_idx pkt_retune_init).
Proof.
  apply (fill_then_drain_returns pkt_retune_init
           (replicate 32 (freq_a, 1)) (replicate 32 None)); reflexivity.
Defined.

(** ** The ring holds its entries in the order of their insertion *)

Lemma pkt_retune_init_ok : queue_ok pkt_retune_init.
Proof. split; simpl; unfold RETUNE_QUEUE_MAX; try reflexivity; lia. Qed.

Lemma contents_empty qu : count qu = 0 -> contents qu = [].
Proof. intros Hc. unfold contents. rewrite Hc. reflexivity. Qed.

(** Two positions of the ring less than 32 apart are different slots. *)
Lemma ring_slots_differ (r k c : Z) :
  0 <= r < RETUNE_QUEUE_MAX -> 0 <= k < c -> c < RETUNE_QUEUE_MAX ->
  slot ((r + c) mod RETUNE_QUEUE_MAX) <> slot ((r + k) mod RETUNE_QUEUE_MAX).
Proof.
  unfold slot, RETUNE_QUEUE_MAX. intros Hr Hk Hc Heq.
  apply Z2Nat.inj in Heq; [| apply Z.mod_pos_bound; lia ..].
  revert Heq. Z.div_mod_to_equations. lia.
Qed.

Lemma enqueue_retune_contents f m qu :
  queue_ok qu -> count qu < RETUNE_QUEUE_MAX ->
  queue_ok (enqueue_retune f m qu).2 /\
  contents (enqueue_retune f m qu).2 = contents qu ++ [Some (new_entry (f, m))].
Proof.
  intros [Hlen Hcount Hrem Hins] Hroom.
  rewrite enqueue_retune_room by lia. simpl. split.
  - split; simpl.
    + rewrite length_insert. exact Hlen.
    + lia.
    + exact Hrem.
    + rewrite Hins, Z.add_mod_idemp_l by (unfold RETUNE_QUEUE_MAX; lia).
      f_equal. lia.
  - unfold contents. simpl.
    replace (Z.to_nat (count qu + 1)) with (S (Z.to_nat (count qu))) by lia.
    rewrite seq_S, fmap_app. simpl. f_equal.
    + apply Forall_fmap_ext, Forall_forall. intros k Hk.
      apply elem_of_seq in Hk.
      apply list_lookup_insert_ne. rewrite Hins.
      apply ring_slots_differ; lia.
    + rewrite Z2Nat.id, <- Hins by lia. f_equal.
      apply list_lookup_insert_eq. rewrite Hlen.
      unfold slot. rewrite Hins.
      pose proof (Z.mod_pos_bound (rem_idx qu + count qu) RETUNE_QUEUE_MAX).
      unfold RETUNE_QUEUE_MAX in *. lia.
Qed.

Lemma dequeue_retune_contents e qu :
  queue_ok qu -> 0 < count qu ->
  queue_ok (dequeue_retune e qu).2 /\
  contents qu = peek_next_retune qu :: contents (dequeue_retune e qu).2.
Proof.
  intros [Hlen Hcount Hrem Hins] Hlive.
  rewrite dequeue_retune_some by (unfold RETUNE_QUEUE_MAX in *; lia).
  simpl. split.
  - split; simpl.
    + exact Hlen.
    + lia.
    + apply Z.mod_pos_bound. reflexivity.
    + rewrite Hins, Z.add_mod_idemp_l by (unfold RETUNE_QUEUE_MAX; lia).
      f_equal. lia.
  - unfold contents, peek_next_retune. simpl.
    destruct (Z.eqb_spec (count qu) 0) as [H0|_]; [lia|].
    replace (Z.to_nat (count qu)) with (S (Z.to_nat (count qu - 1))) by lia.
    simpl. f_equal.
    + rewrite Z.add_0_r, Z.mod_small by exact Hrem. reflexivity.
    + rewrite <- fmap_S_seq, <- list_fmap_compose.
      apply Forall_fmap_ext, Forall_forall. intros k _. simpl.
      rewrite Z.add_mod_idemp_l by (unfold RETUNE_QUEUE_MAX; lia).
      do 3 f_equal. lia.
Qed.

Lemma enqueue_all_contents reqs : forall qu,
  queue_ok qu ->
  count qu + Z.of_nat (length reqs) <= RETUNE_QUEUE_MAX ->
  queue_ok (enqueue_all reqs qu).2 /\
  contents (enqueue_all reqs qu).2 =
    contents qu ++ ((fun r => Some (new_entry r)) <$> reqs).
Proof.
  induction reqs as [|[f m] reqs IH]; intros qu Hok Hroom; simpl in *.
  - rewrite app_nil_r. auto.
  - destruct (enqueue_retune_contents f m qu Hok) as [Hok1 Hc1]; [lia|].
    assert (Hn : count (enqueue_retune f m qu).2 = count qu + 1).
    { rewrite enqueue_retune_room by (destruct Hok; lia). reflexivity. }
    destruct (enqueue_retune f m qu) as [r q1]. simpl in *.
    destruct (IH q1 Hok1) as [Hok2 Hc2]; [lia|].
    destruct (enqueue_all reqs q1) as [rs q2]. simpl in *.
    split; [exact Hok2|].
    rewrite Hc2, Hc1, <- app_assoc. reflexivity.
Qed.

Lemma drain_heads_contents n : forall qu,
  queue_ok qu -> Z.of_nat n <= count qu ->
  (drain_heads n qu).1 = take n (contents qu).
Proof.
  induction n as [|n IH]; intros qu Hok Hn; simpl.
  - reflexivity.
  - destruct (dequeue_retune_contents None qu Hok) as [Hok1 Hc]; [lia|].
    assert (Hcount : count (dequeue_retune None qu).2 = count qu - 1).
    { rewrite dequeue_retune_some
        by (destruct Hok; unfold RETUNE_QUEUE_MAX in *; lia). reflexivity. }
    destruct (dequeue_retune None qu) as [[r e'] q1]. simpl in *.
    specialize (IH q1 Hok1 ltac:(lia)).
    destruct (drain_heads n q1) as [hs q2]. simpl in *.
    rewrite Hc. simpl. f_equal. exact IH.
Qed.

(** The ring itself is first-in first-out.  On a queue that satisfies the
    invariant and is empty, after any run of at most 32 inserts the heads
    that [peek_next_retune] shows between successive [dequeue_retune(NULL)]
    calls are the inserted entries, in the order of insertion, each in state
    [ENTRY_STATE_NEW] with the module and the frequency specification that
    were passed to [enqueue_retune]. *)
Lemma drain_heads_fifo (qu : queue) (reqs : list (lms_freq * bladerf_module)) :
  queue_ok qu -> count qu = 0 ->
  Z.of_nat (length reqs) <= RETUNE_QUEUE_MAX ->
  (drain_heads (length reqs) (enqueue_all reqs qu).2).1 =
    (fun r => Some (new_entry r)) <$> reqs.
Proof.
  intros Hok Hempty Hroom.
  destruct (enqueue_all_contents reqs qu Hok) as [Hok1 Hc]; [lia|].
  destruct (enqueue_all_room reqs qu) as (_ & Hcount & _); [lia..|].
  rewrite drain_heads_contents by (auto; lia).
  rewrite Hc, contents_empty by exact Hempty. simpl.
  apply take_ge. rewrite length_fmap. lia.
Qed.

(** In particular from the queue as [pkt_retune_init] leaves it. *)
Lemma drain_heads_fifo_init (reqs : list (lms_freq * bladerf_module)) :
  Z.of_nat (length reqs) <= RETUNE_QUEUE_MAX ->
  (drain_heads (length reqs) (enqueue_all reqs pkt_retune_init).2).1 =
    (fun r => Some (new_entry r)) <$> reqs.
Proof. apply drain_heads_fifo; [apply pkt_retune_init_ok | reflexivity]. Qed.

(** ** What [dequeue_retune] hands back *)

(** Whatever the queue holds, the object of the caller is after the call what
    it was before. *)
Lemma dequeue_retune_out_untouched e qu : (dequeue_retune e qu).1.2 = e.
Proof. unfold dequeue_retune. destruct (count qu =? 0); reflexivity. Qed.

(** The return value and the queue are those of the specified [remove]; so
    is the whole result when no [out] is passed. *)
Lemma dequeue_retune_queue_as_specified e qu :
  (dequeue_retune e qu).1.1 = (remove_as_specified e qu).1.1 /\
  (dequeue_retune e qu).2 = (remove_as_specified e qu).2.
Proof.
  unfold dequeue_retune, remove_as_specified.
  destruct (count qu =? 0); split; reflexivity.
Qed.

Lemma dequeue_retune_null_as_specified qu :
  dequeue_retune None qu = remove_as_specified None qu.
Proof.
  unfold dequeue_retune, remove_as_specified.
  destruct (count qu =? 0); reflexivity.
Qed.

(** A run of removes hands every [out] object back as it was given. *)
Lemma dequeue_all_out_untouched outs : forall qu,
  snd <$> (dequeue_all outs qu).1 = outs.
Proof.
  induction outs as [|e outs IH]; intros qu; simpl; [reflexivity|].
  pose proof (dequeue_retune_out_untouched e qu) as He.
  destruct (dequeue_retune e qu) as [[r e'] q1]. simpl in He. subst e'.
  specialize (IH q1). destruct (dequeue_all outs q1) as [rs q2].
  simpl in *. f_equal. exact IH.
Qed.

(** C2, evaluated.  The queue holds one entry, [freq_a] for module 0.  A
    remove with an [out] object returns 0 and advances the removal index, as
    specified, but the [out] object still holds what it held before the call
    (zeros), where the specified [remove] leaves the head entry in it. *)
Theorem dequeue_retune_leaves_out_unwritten :
  peek_next_retune one_queue = Some (new_entry (freq_a, 0)) /\
  dequeue_retune (Some zero_entry) one_queue =
    (0, Some zero_entry, mk_queue 0 1 1 (entries one_queue)) /\
  remove_as_specified (Some zero_entry) one_queue =
    (0, Some (new_entry (freq_a, 0)), mk_queue 0 1 1 (entries one_queue)) /\
  zero_entry <> new_entry (freq_a, 0).
Proof. repeat split. discriminate. Qed.

(** C1, evaluated.  Two inserts into the initial queue, then two removes,
    each with an [out] object holding zeros.  The removes return 1 and 0, and
    both [out] objects still hold zeros: neither inserted entry reaches the
    caller.  The ring did keep them in order, as the heads seen through
    [peek_next_retune] show. *)
Theorem dequeue_all_yields_no_entry :
  let filled := (enqueue_all [(freq_a, 0); (freq_b, 1)] pkt_retune_init).2 in
  (dequeue_all [Some zero_entry; Some zero_entry] filled).1 =
    [(1, Some zero_entry); (0, Some zero_entry)] /\
  (drain_heads 2 filled).1 =
    [Some (new_entry (freq_a, 0)); Some (new_entry (freq_b, 1))] /\
  Some zero_entry <> Some (new_entry (freq_a, 0)).
Proof. repeat split. discriminate. Qed.

(** ** Bits of the response flags *)

Lemma testbit_u8 (x n : Z) :
  0 <= n -> Z.testbit (u8 x) n = (n <? 8) && Z.testbit x n.
Proof. intros Hn. unfold u8. apply Z.testbit_mod_pow2. lia. Qed.

Lemma u8_fits (x : Z) : is_u8 x -> u8 x = x.
Proof. intros Hx. apply u8_small. unfold is_u8 in Hx. lia. Qed.

(** Clearing the success flag of a byte that holds only that flag leaves 0. *)
Lemma clear_only_flag (fl : Z) : u8 (Z.land (u8 fl) (Z.lnot fl)) = 0.
Proof.
  apply Z.bits_inj'. intros n Hn.
  rewrite testbit_u8, Z.land_spec, testbit_u8, Z.lnot_spec, Z.bits_0 by lia.
  destruct (n <? 8), (Z.testbit fl n); reflexivity.
Qed.

(** Clearing flag [a] of the byte that holds [a] and [b], two flags with no
    bit in common, leaves [b]. *)
Lemma clear_one_of_two (a b : Z) :
  is_u8 b -> Z.land a b = 0 ->
  u8 (Z.land (u8 (Z.lor (u8 a) b)) (Z.lnot a)) = b.
Proof.
  intros Hb Hab. apply Z.bits_inj'. intros n Hn.
  assert (Hbn : Z.testbit b n = (n <? 8) && Z.testbit b n).
  { rewrite <- testbit_u8, u8_fits by assumption. reflexivity. }
  assert (Habn : Z.testbit a n && Z.testbit b n = false).
  { rewrite <- Z.land_spec, Hab. apply Z.bits_0. }
  rewrite testbit_u8, Z.land_spec, testbit_u8, Z.lor_spec, testbit_u8,
    Z.lnot_spec by lia.
  rewrite Hbn.
  destruct (n <? 8), (Z.testbit a n), (Z.testbit b n);
    simpl in *; congruence.
Qed.

(** ** The scheduler step and the request dispatcher *)

Section FirmwareProperties.
Context {hdr : Headers} {HW : Type} {devs : Devices HW}.

Lemma peek_some_live (qu : queue) (e : queue_entry) :
  peek_next_retune qu = Some e -> count qu <> 0.
Proof.
  unfold peek_next_retune.
  destruct (Z.eqb_spec (count qu) 0); [discriminate | auto].
Qed.

Lemma error_count_after_increment (s : nios HW) :
  dev (INCREMENT_ERROR_COUNT s) = dev s /\
  q (INCREMENT_ERROR_COUNT s) = q s /\
  pkt_retune_error_count (INCREMENT_ERROR_COUNT s) =
    (if BLADERF_NIOS_DEBUG then u32 (pkt_retune_error_count s + 1)
     else pkt_retune_error_count s).
Proof. unfold INCREMENT_ERROR_COUNT. destruct BLADERF_NIOS_DEBUG; auto. Qed.

(** C4.  When the head entry is in state [ENTRY_STATE_READY], one scheduler
    step tunes the device with the entry's module and frequency
    specification, then (when tuning returned 0) selects the band named by
    the low-band flag of that specification.  Whatever the two primitives
    returned, the queue after the step is the queue with the head removed:
    the count is one less, the removal index one further around the ring.  A
    failure of either primitive shows only in the error counter, which a
    debug build increments. *)
Theorem ready_head_is_retired (s : nios HW) (e : queue_entry) :
  is_u8 (count (q s)) ->
  peek_next_retune (q s) = Some e ->
  state e = ENTRY_STATE_READY ->
  let tuned := lms_set_precalculated_frequency (module e) (freq e) (dev s) in
  let low_band :=
    negb (Z.land (flags tuned.1.2) LMS_FREQ_FLAGS_LOW_BAND =? 0) in
  let banded := band_select (module e) low_band tuned.2 in
  let failed := if tuned.1.1 =? 0 then negb (banded.1 =? 0) else true in
  let s' := pkt_retune_work s in
  dev s' = (if tuned.1.1 =? 0 then banded.2 else tuned.2) /\
  q s' = (dequeue_retune None (set_head_freq tuned.1.2 (q s))).2 /\
  count (q s') = count (q s) - 1 /\
  rem_idx (q s') = (rem_idx (q s) + 1) mod RETUNE_QUEUE_MAX /\
  ins_idx (q s') = ins_idx (q s) /\
  pkt_retune_error_count s' =
    (if failed && BLADERF_NIOS_DEBUG
     then u32 (pkt_retune_error_count s + 1)
     else pkt_retune_error_count s).
Proof.
  intros Hu8 Hpeek Hready tuned low_band banded failed s'.
  pose proof (peek_some_live _ _ Hpeek) as Hlive.
  assert (Hdrop : forall t : nios HW,
            q t = set_head_freq tuned.1.2 (q s) ->
            q (drop_head t) = (dequeue_retune None (set_head_freq tuned.1.2 (q s))).2 /\
            count (q (drop_head t)) = count (q s) - 1 /\
            rem_idx (q (drop_head t)) = (rem_idx (q s) + 1) mod RETUNE_QUEUE_MAX /\
            ins_idx (q (drop_head t)) = ins_idx (q s)).
  { intros t Ht. unfold drop_head. simpl. rewrite Ht.
    rewrite dequeue_retune_some by (unfold is_u8 in Hu8; simpl; lia).
    simpl. auto. }
  subst s'. unfold pkt_retune_work. rewrite Hpeek, Hready.
  unfold apply_retune. subst failed banded low_band tuned.
  destruct (lms_set_precalculated_frequency (module e) (freq e) (dev s))
    as [[status f'] d1]. simpl in *.
  destruct (status =? 0); simpl.
  - destruct (band_select (module e)
                (negb (Z.land (flags f') LMS_FREQ_FLAGS_LOW_BAND =? 0)) d1)
      as [status2 d2]. simpl.
    destruct (status2 =? 0); simpl.
    + destruct (Hdrop (mk_nios d2 (set_head_freq f' (q s))
                         (pkt_retune_error_count s)) eq_refl)
        as (Hq & Hc & Hr & Hi).
      repeat split; assumption || reflexivity.
    + set (t := mk_nios d2 (set_head_freq f' (q s)) (pkt_retune_error_count s)).
      destruct (error_count_after_increment t) as (Hd & Hq' & He).
      destruct (Hdrop (INCREMENT_ERROR_COUNT t) Hq') as (Hq & Hc & Hr & Hi).
      repeat split; assumption.
  - set (t := mk_nios d1 (set_head_freq f' (q s)) (pkt_retune_error_count s)).
    destruct (error_count_after_increment t) as (Hd & Hq' & He).
    destruct (Hdrop (INCREMENT_ERROR_COUNT t) Hq') as (Hq & Hc & Hr & Hi).
    repeat split; assumption.
Qed.

(** The deferred branch of [pkt_retune], with the insert written out: what
    the response and the state are when the timestamp is not "now". *)
Lemma pkt_retune_deferred (b : retune_req) (s : nios HW) :
  req_timestamp b <> NIOS_PKT_RETUNE_NOW ->
  pkt_retune b s =
    (respond
       (if (enqueue_retune (request_freq b) (req_module b) (q s)).1 =? QUEUE_FULL
        then -1 else 0)
       (u8 NIOS_PKT_RETUNERESP_FLAG_SUCCESS) 0 (request_freq b),
     mk_nios (dev s)
       (enqueue_retune (request_freq b) (req_module b) (q s)).2
       (pkt_retune_error_count s)).
Proof.
  intros Hlater. unfold pkt_retune.
  destruct (Z.eqb_spec (req_timestamp b) NIOS_PKT_RETUNE_NOW); [contradiction|].
  destruct (enqueue_retune (request_freq b) (req_module b) (q s)).
  reflexivity.
Qed.

Lemma pkt_retune_deferred_room (b : retune_req) (s : nios HW) :
  is_u8 NIOS_PKT_RETUNERESP_FLAG_SUCCESS ->
  req_timestamp b <> NIOS_PKT_RETUNE_NOW ->
  0 <= count (q s) < RETUNE_QUEUE_MAX ->
  pkt_retune b s =
    (mk_retune_resp 0 0xff NIOS_PKT_RETUNERESP_FLAG_SUCCESS,
     mk_nios (dev s)
       (mk_queue (count (q s) + 1)
          ((ins_idx (q s) + 1) mod RETUNE_QUEUE_MAX) (rem_idx (q s))
          (<[slot (ins_idx (q s)) := new_entry (request_freq b, req_module b)]>
             (entries (q s))))
       (pkt_retune_error_count s)).
Proof.
  intros Hfits Hlater Hroom.
  rewrite pkt_retune_deferred, enqueue_retune_room by assumption. simpl.
  destruct (Z.eqb_spec (count (q s) + 1) QUEUE_FULL) as [Heq|_].
  { unfold QUEUE_FULL, RETUNE_QUEUE_MAX in *. lia. }
  unfold respond. simpl. rewrite u8_fits by exact Hfits. reflexivity.
Qed.

Lemma pkt_retune_deferred_full (b : retune_req) (s : nios HW) :
  req_timestamp b <> NIOS_PKT_RETUNE_NOW ->
  count (q s) = RETUNE_QUEUE_MAX ->
  pkt_retune b s =
    (mk_retune_resp 0 0xff 0,
     mk_nios (dev s) (q s) (pkt_retune_error_count s)).
Proof.
  intros Hlater Hfull.
  rewrite pkt_retune_deferred by assumption.
  unfold enqueue_retune. rewrite Hfull. simpl.
  unfold respond. simpl. rewrite clear_only_flag. reflexivity.
Qed.

(** C5.  A request with a timestamp other than "now" and a valid module:
    when the count is below 32, the count after the request is one more, the
    success flag of the response is set and its duration is 0; when the count
    is 32, the success flag is clear and the duration is 0. *)
Theorem deferred_request_counts (b : retune_req) (s : nios HW) :
  is_u8 NIOS_PKT_RETUNERESP_FLAG_SUCCESS ->
  req_timestamp b <> NIOS_PKT_RETUNE_NOW ->
  req_module b = BLADERF_MODULE_RX \/ req_module b = BLADERF_MODULE_TX ->
  let r := pkt_retune b s in
  (0 <= count (q s) < RETUNE_QUEUE_MAX ->
   count (q r.2) = count (q s) + 1 /\
   flag_set (resp_flags r.1) NIOS_PKT_RETUNERESP_FLAG_SUCCESS /\
   resp_duration r.1 = 0) /\
  (count (q s) = RETUNE_QUEUE_MAX ->
   count (q r.2) = count (q s) /\
   flag_clear (resp_flags r.1) NIOS_PKT_RETUNERESP_FLAG_SUCCESS /\
   resp_duration r.1 = 0).
Proof.
  intros Hfits Hlater _ r. subst r. split.
  - intros Hroom. rewrite pkt_retune_deferred_room by assumption. simpl.
    repeat split. unfold flag_set. apply Z.land_diag.
  - intros Hfull. rewrite pkt_retune_deferred_full by assumption. simpl.
    repeat split.
Qed.

(** C10.  On the deferred path the module is not looked at.  Whatever the
    module of the request, valid or not, when the count is below 32 the slot
    at the insertion index holds after the request a new entry with that
    very module and the frequency specification of the request, the count is
    one more and the success flag is set.  An immediate request whose module
    is neither receive nor transmit, in contrast, gets a response with the
    success flag clear and changes nothing. *)
Theorem deferred_module_not_validated (b : retune_req) (s : nios HW) :
  is_u8 NIOS_PKT_RETUNERESP_FLAG_SUCCESS ->
  req_timestamp b <> NIOS_PKT_RETUNE_NOW ->
  0 <= count (q s) < RETUNE_QUEUE_MAX ->
  (slot (ins_idx (q s)) < length (entries (q s)))%nat ->
  let r := pkt_retune b s in
  (entries (q r.2) !! slot (ins_idx (q s)) =
     Some (mk_queue_entry ENTRY_STATE_NEW (req_module b) (request_freq b)) /\
   count (q r.2) = count (q s) + 1 /\
   flag_set (resp_flags r.1) NIOS_PKT_RETUNERESP_FLAG_SUCCESS) /\
  (forall b' : retune_req,
     req_timestamp b' = NIOS_PKT_RETUNE_NOW ->
     req_module b' <> BLADERF_MODULE_RX ->
     req_module b' <> BLADERF_MODULE_TX ->
     flag_clear (resp_flags (pkt_retune b' s).1)
       NIOS_PKT_RETUNERESP_FLAG_SUCCESS /\
     (pkt_retune b' s).2 = s).
Proof.
  intros Hfits Hlater Hroom Hslot r. subst r. split.
  - rewrite pkt_retune_deferred_room by assumption. simpl.
    repeat split.
    + apply list_lookup_insert_eq. exact Hslot.
    + unfold flag_set. apply Z.land_diag.
  - intros b' Hnow Hrx Htx. unfold pkt_retune.
    rewrite Hnow, Z.eqb_refl.
    destruct (Z.eqb_spec (req_module b') BLADERF_MODULE_RX); [contradiction|].
    destruct (Z.eqb_spec (req_module b') BLADERF_MODULE_TX); [contradiction|].
    simpl. split; [|reflexivity].
    unfold respond, flag_clear. simpl. rewrite clear_only_flag. reflexivity.
Qed.

Lemma valid_module_test (m : bladerf_module) :
  m = BLADERF_MODULE_RX \/ m = BLADERF_MODULE_TX ->
  (m =? BLADERF_MODULE_RX) || (m =? BLADERF_MODULE_TX) = true.
Proof.
  intros [-> | ->]; rewrite Z.eqb_refl; [reflexivity | apply orb_true_r].
Qed.

(** C6.  An immediate request with a valid module whose tuning call returns
    non-zero: in the response the success flag is clear, the duration-valid
    flag is clear and the duration is 0. *)
Theorem immediate_tune_failure (b : retune_req) (s : nios HW) :
  req_timestamp b = NIOS_PKT_RETUNE_NOW ->
  req_module b = BLADERF_MODULE_RX \/ req_module b = BLADERF_MODULE_TX ->
  (lms_set_precalculated_frequency (req_module b) (request_freq b)
     (time_tamer_read (req_module b) (dev s)).2).1.1 <> 0 ->
  let r := (pkt_retune b s).1 in
  flag_clear (resp_flags r) NIOS_PKT_RETUNERESP_FLAG_SUCCESS /\
  flag_clear (resp_flags r) NIOS_PKT_RETUNERESP_FLAG_TSVTUNE_VALID /\
  resp_duration r = 0.
Proof.
  intros Hnow Hvalid Hfail r. subst r. unfold pkt_retune.
  rewrite Hnow, Z.eqb_refl, (valid_module_test _ Hvalid).
  destruct (time_tamer_read (req_module b) (dev s)) as [retune_start d1].
  simpl in Hfail.
  destruct (lms_set_precalculated_frequency (req_module b) (request_freq b) d1)
    as [[status f1] d2].
  simpl in Hfail.
  destruct (Z.eqb_spec status 0) as [Hzero|_]; [contradiction|]. simpl.
  unfold respond, flag_clear.
  destruct (Z.eqb_spec status 0) as [Hzero|_]; [contradiction|]. simpl.
  rewrite clear_only_flag. auto.
Qed.

(** C7.  An immediate request with a valid module whose tuning call returns
    0 and whose band selection returns non-zero: in the response the success
    flag is clear, the duration-valid flag is set, the duration is 0 and the
    capacitance result is the one in the frequency specification as the
    tuning call left it.  The two response flags are taken to be separate
    bits of the flags byte. *)
Theorem immediate_band_failure (b : retune_req) (s : nios HW) :
  flags_separate ->
  req_timestamp b = NIOS_PKT_RETUNE_NOW ->
  req_module b = BLADERF_MODULE_RX \/ req_module b = BLADERF_MODULE_TX ->
  let tuned :=
    lms_set_precalculated_frequency (req_module b) (request_freq b)
      (time_tamer_read (req_module b) (dev s)).2 in
  tuned.1.1 = 0 ->
  (band_select (req_module b) (req_low_band b) tuned.2).1 <> 0 ->
  let r := (pkt_retune b s).1 in
  flag_clear (resp_flags r) NIOS_PKT_RETUNERESP_FLAG_SUCCESS /\
  flag_set (resp_flags r) NIOS_PKT_RETUNERESP_FLAG_TSVTUNE_VALID /\
  resp_duration r = 0 /\
  resp_vcocap_result r = vcocap_result tuned.1.2.
Proof.
  intros [_ _ Hfits _ Hdisj] Hnow Hvalid tuned Htuned Hband r.
  subst r tuned. unfold pkt_retune.
  rewrite Hnow, Z.eqb_refl, (valid_module_test _ Hvalid).
  destruct (time_tamer_read (req_module b) (dev s)) as [retune_start d1].
  simpl in Htuned, Hband |- *.
  destruct (lms_set_precalculated_frequency (req_module b) (request_freq b) d1)
    as [[status f1] d2].
  simpl in Htuned, Hband |- *. subst status. simpl.
  destruct (band_select (req_module b) (req_low_band b) d2) as [status2 d3].
  simpl in Hband.
  destruct (Z.eqb_spec status2 0) as [Hzero|_]; [contradiction|]. simpl.
  unfold respond, flag_clear, flag_set.
  destruct (Z.eqb_spec status2 0) as [Hzero|_]; [contradiction|]. simpl.
  rewrite clear_one_of_two by assumption.
  repeat split.
  - rewrite Z.land_comm. exact Hdisj.
  - apply Z.land_diag.
Qed.

(** C8.  An immediate request with a valid module leaves the queue as it
    was: the same count, the same insertion and removal indices, the same
    stored entries. *)
Theorem immediate_request_keeps_queue (b : retune_req) (s : nios HW) :
  req_timestamp b = NIOS_PKT_RETUNE_NOW ->
  req_module b = BLADERF_MODULE_RX \/ req_module b = BLADERF_MODULE_TX ->
  let s' := (pkt_retune b s).2 in
  q s' = q s /\
  count (q s') = count (q s) /\
  ins_idx (q s') = ins_idx (q s) /\
  rem_idx (q s') = rem_idx (q s) /\
  entries (q s') = entries (q s).
Proof.
  intros Hnow Hvalid s'.
  assert (Hq : q s' = q s).
  { subst s'. unfold pkt_retune.
    rewrite Hnow, Z.eqb_refl, (valid_module_test _ Hvalid).
    destruct (time_tamer_read (req_module b) (dev s)) as [retune_start d1].
    destruct (lms_set_precalculated_frequency (req_module b) (request_freq b) d1)
      as [[status f1] d2].
    destruct (status =? 0); simpl; [|reflexivity].
    destruct (band_select (req_module b) (req_low_band b) d2) as [status2 d3].
    destruct (status2 =? 0); simpl; [|reflexivity].
    destruct (time_tamer_read (req_module b) d3) as [retune_end d4].
    reflexivity. }
  rewrite Hq. auto.
Qed.

End FirmwareProperties.

(** ** The theorems at concrete inputs *)

Section Bench.
#[local] Existing Instance bench_headers.
#[local] Existing Instance bench_devices.

Lemma bench_flags_separate : flags_separate.
Proof. split; evaluated. Qed.

(** A ready head whose tuning fails: the entry goes, the counter of the
    debug build moves from 7 to 8. *)
Lemma ready_head_is_retired_witness :
  let s' := pkt_retune_work (mk_nios bench_tune_fails ready_queue 7) in
  dev s' = bench_tune_fails /\
  count (q s') = 0 /\
  rem_idx (q s') = 1 /\
  ins_idx (q s') = 1 /\
  pkt_retune_error_count s' = 8.
Proof.
  pose proof (ready_head_is_retired
                (mk_nios bench_tune_fails ready_queue 7)
                (mk_queue_entry ENTRY_STATE_READY 0 freq_a)) as Hstep.
  destruct Hstep as (Hdev & _ & Hcount & Hrem & Hins & Herr);
    [evaluated | reflexivity | reflexivity |].
  repeat split; assumption.
Defined.

(** A deferred request for module 1 on a queue of one entry is accepted and
    makes the count 2; on the full queue it is refused and the count stays
    32.  The duration is 0 both times. *)
Lemma deferred_request_counts_witness :
  let r := pkt_retune req_later (mk_nios bench_ok one_queue 0) in
  let r' := pkt_retune req_later (mk_nios bench_ok full_queue 0) in
  (count (q r.2) = 2 /\
   flag_set (resp_flags r.1) NIOS_PKT_RETUNERESP_FLAG_SUCCESS /\
   resp_duration r.1 = 0) /\
  (count (q r'.2) = 32 /\
   flag_clear (resp_flags r'.1) NIOS_PKT_RETUNERESP_FLAG_SUCCESS /\
   resp_duration r'.1 = 0).
Proof.
  split.
  - apply (deferred_request_counts req_later (mk_nios bench_ok one_queue 0));
      [apply success_fits, bench_flags_separate | discriminate
      | right; reflexivity |].
    evaluated.
  - apply (deferred_request_counts req_later (mk_nios bench_ok full_queue 0));
      [apply success_fits, bench_flags_separate | discriminate
      | right; reflexivity |].
    reflexivity.
Defined.

(** An immediate request on a bench whose tuning returns -1. *)
Lemma immediate_tune_failure_witness :
  let r := (pkt_retune req_now (mk_nios bench_tune_fails one_queue 0)).1 in
  flag_clear (resp_flags r) NIOS_PKT_RETUNERESP_FLAG_SUCCESS /\
  flag_clear (resp_flags r) NIOS_PKT_RETUNERESP_FLAG_TSVTUNE_VALID /\
  resp_duration r = 0.
Proof.
  apply (immediate_tune_failure req_now (mk_nios bench_tune_fails one_queue 0));
    [reflexivity | left; reflexivity | discriminate].
Defined.

(** An immediate request on a bench whose tuning returns 0 and reports the
    capacitance 37, and whose band selection returns -1. *)
Lemma immediate_band_failure_witness :
  let r := (pkt_retune req_now (mk_nios bench_band_fails one_queue 0)).1 in
  flag_clear (resp_flags r) NIOS_PKT_RETUNERESP_FLAG_SUCCESS /\
  flag_set (resp_flags r) NIOS_PKT_RETUNERESP_FLAG_TSVTUNE_VALID /\
  resp_duration r = 0 /\
  resp_vcocap_result r = 37.
Proof.
  refine (immediate_band_failure req_now (mk_nios bench_band_fails one_queue 0)
            bench_flags_separate _ _ _ _);
    [reflexivity | left; reflexivity | reflexivity | discriminate].
Defined.

(** An immediate request that succeeds, on a queue of one entry. *)
Lemma immediate_request_keeps_queue_witness :
  let s' := (pkt_retune req_now (mk_nios bench_ok one_queue 0)).2 in
  q s' = one_queue /\
  count (q s') = 1 /\
  ins_idx (q s') = 1 /\
  rem_idx (q s') = 0 /\
  entries (q s') = entries one_queue.
Proof.
  apply (immediate_request_keeps_queue req_now (mk_nios bench_ok one_queue 0));
    [reflexivity | left; reflexivity].
Defined.

(** A deferred request for module 7, which is neither receive nor transmit,
    on a queue of one entry: slot 1 takes the entry with module 7. *)
Lemma deferred_module_not_validated_witness :
  let s := mk_nios bench_ok one_queue 0 in
  let r := pkt_retune req_later_bad_module s in
  (entries (q r.2) !! 1%nat =
     Some (mk_queue_entry ENTRY_STATE_NEW 7 (request_freq req_later_bad_module)) /\
   count (q r.2) = 2 /\
   flag_set (resp_flags r.1) NIOS_PKT_RETUNERESP_FLAG_SUCCESS) /\
  (forall b' : retune_req,
     req_timestamp b' = NIOS_PKT_RETUNE_NOW ->
     req_module b' <> BLADERF_MODULE_RX ->
     req_module b' <> BLADERF_MODULE_TX ->
     flag_clear (resp_flags (pkt_retune b' s).1)
       NIOS_PKT_RETUNERESP_FLAG_SUCCESS /\
     (pkt_retune b' s).2 = s).
Proof.
  apply (deferred_module_not_validated req_later_bad_module
           (mk_nios bench_ok one_queue 0));
    [apply success_fits, bench_flags_separate | discriminate
    | evaluated | evaluated].
Defined.

End Bench.

(** * Further properties of the queue *)

Lemma contents_length qu : length (contents qu) = Z.to_nat (count qu).
Proof. unfold contents. rewrite length_fmap, length_seq. reflexivity. Qed.

(** Under the invariant every live position is a slot of the array. *)
Lemma contents_live qu :
  queue_ok qu -> exists l : list queue_entry, contents qu = Some <$> l.
Proof.
  intros [Hlen _ _ _].
  exists ((fun k : nat =>
             default zero_entry
               (entries qu !! slot ((rem_idx qu + Z.of_nat k) mod RETUNE_QUEUE_MAX)))
            <$> seq 0 (Z.to_nat (count qu))).
  unfold contents. rewrite <- list_fmap_compose.
  apply Forall_fmap_ext, Forall_forall. intros k _. simpl.
  destruct (lookup_lt_is_Some_2 (entries qu)
              (slot ((rem_idx qu + Z.of_nat k) mod RETUNE_QUEUE_MAX)))
    as [e He]; [|rewrite He; reflexivity].
  rewrite Hlen. unfold slot.
  pose proof (Z.mod_pos_bound (rem_idx qu + Z.of_nat k) RETUNE_QUEUE_MAX).
  unfold RETUNE_QUEUE_MAX in *. lia.
Qed.

Lemma live_length qu (l : list queue_entry) :
  queue_ok qu -> contents qu = Some <$> l -> Z.of_nat (length l) = count qu.
Proof.
  intros [_ Hcount _ _] Hl.
  pose proof (contents_length qu) as Hn.
  rewrite Hl, length_fmap in Hn. lia.
Qed.

Lemma peek_is_head qu (l : list queue_entry) :
  queue_ok qu -> contents qu = Some <$> l -> peek_next_retune qu = head l.
Proof.
  intros Hok Hl. pose proof (live_length qu l Hok Hl) as Hn.
  destruct (Z.eq_dec (count qu) 0) as [H0|Hpos].
  - destruct l; [|simpl in Hn; lia].
    unfold peek_next_retune. rewrite H0. reflexivity.
  - destruct (dequeue_retune_contents None qu Hok) as [_ Hc];
      [destruct Hok; lia|].
    rewrite Hl in Hc. destruct l as [|x l']; [discriminate|].
    simpl in Hc. injection Hc as Hx _. rewrite <- Hx. reflexivity.
Qed.

Lemma run_op_fifo op qu (l : list queue_entry) :
  queue_ok qu -> contents qu = Some <$> l ->
  (run_op op qu).1 = (fifo_op op l).1 /\
  contents (run_op op qu).2 = Some <$> (fifo_op op l).2 /\
  queue_ok (run_op op qu).2.
Proof.
  intros Hok Hl. pose proof (live_length qu l Hok Hl) as Hn.
  destruct op as [f m|e]; simpl.
  - rewrite Hn.
    destruct (Z.leb_spec RETUNE_QUEUE_MAX (count qu)) as [Hfull|Hroom].
    + unfold enqueue_retune.
      destruct (Z.leb_spec RETUNE_QUEUE_MAX (count qu)); [|lia].
      simpl. auto.
    + destruct (enqueue_retune_contents f m qu Hok Hroom) as [Hok' Hc].
      split; [|split; [|exact Hok']].
      * rewrite enqueue_retune_room by (destruct Hok; lia). reflexivity.
      * rewrite Hc, Hl. simpl. rewrite fmap_app. reflexivity.
  - destruct l as [|x l'].
    + rewrite dequeue_retune_empty by (simpl in Hn; lia). simpl. auto.
    + assert (Hpos : 0 < count qu) by (simpl in Hn; lia).
      destruct (dequeue_retune_contents e qu Hok Hpos) as [Hok' Hc].
      rewrite dequeue_retune_some in Hok', Hc |- *
        by (destruct Hok; unfold RETUNE_QUEUE_MAX in *; lia).
      simpl in *. split; [lia|]. split; [|exact Hok'].
      rewrite Hl in Hc. simpl in Hc. injection Hc as _ Hc. auto.
Qed.

(** X1.  The queue invariant survives every call of the two operations,
    whatever the arguments and whether the call succeeds or is refused:
    32 slots, a count between 0 and 32, the removal index inside the array
    and the insertion index [count] slots ahead of it around the ring. *)
Theorem queue_ops_keep_invariant
    (f : lms_freq) (m : bladerf_module) (e : option queue_entry) (qu : queue) :
  queue_ok qu ->
  queue_ok (enqueue_retune f m qu).2 /\ queue_ok (dequeue_retune e qu).2.
Proof.
  intros Hok. destruct (contents_live qu Hok) as [l Hl]. split.
  - apply (run_op_fifo (Insert f m) qu l Hok Hl).
  - apply (run_op_fifo (Remove e) qu l Hok Hl).
Qed.

Lemma queue_ops_keep_invariant_witness :
  queue_ok (enqueue_retune freq_b 1 one_queue).2 /\
  queue_ok (dequeue_retune None one_queue).2.
Proof.
  apply (queue_ops_keep_invariant freq_b 1 None one_queue).
  split; evaluated.
Defined.

(** X2.  Under the queue invariant the two refusal codes cannot be
    mistaken for a size: [enqueue_retune] returns [QUEUE_FULL] exactly when
    the count is 32 and otherwise the new count, between 1 and 32;
    [dequeue_retune] returns [QUEUE_EMPTY] exactly when the count is 0 and
    otherwise the new count, between 0 and 31. *)
Theorem return_codes_unambiguous
    (f : lms_freq) (m : bladerf_module) (e : option queue_entry) (qu : queue) :
  queue_ok qu ->
  ((enqueue_retune f m qu).1 = QUEUE_FULL <-> count qu = RETUNE_QUEUE_MAX) /\
  (count qu < RETUNE_QUEUE_MAX ->
   (enqueue_retune f m qu).1 = count qu + 1 /\
   1 <= (enqueue_retune f m qu).1 <= RETUNE_QUEUE_MAX) /\
  ((dequeue_retune e qu).1.1 = QUEUE_EMPTY <-> count qu = 0) /\
  (0 < count qu ->
   (dequeue_retune e qu).1.1 = count qu - 1 /\
   0 <= (dequeue_retune e qu).1.1 < RETUNE_QUEUE_MAX).
Proof.
  intros [_ Hcount _ _].
  assert (Hins : count qu < RETUNE_QUEUE_MAX ->
                 (enqueue_retune f m qu).1 = count qu + 1).
  { intros Hroom. rewrite enqueue_retune_room by lia. reflexivity. }
  assert (Hrem : 0 < count qu -> (dequeue_retune e qu).1.1 = count qu - 1).
  { intros Hpos.
    rewrite dequeue_retune_some by (unfold RETUNE_QUEUE_MAX in *; lia).
    reflexivity. }
  unfold RETUNE_QUEUE_MAX, QUEUE_FULL, QUEUE_EMPTY in *.
  repeat split.
  - intros Hfull. destruct (Z.eq_dec (count qu) 32) as [|Hne]; [assumption|].
    rewrite Hins in Hfull by lia. lia.
  - intros Hfull. unfold enqueue_retune. rewrite Hfull. reflexivity.
  - apply Hins. assumption.
  - rewrite Hins by assumption. lia.
  - rewrite Hins by assumption. lia.
  - intros Hempty. destruct (Z.eq_dec (count qu) 0) as [|Hne]; [assumption|].
    rewrite Hrem in Hempty by lia. lia.
  - intros Hempty. rewrite dequeue_retune_empty by assumption. reflexivity.
  - apply Hrem. assumption.
  - rewrite Hrem by assumption. lia.
  - rewrite Hrem by assumption. lia.
Qed.

Lemma return_codes_unambiguous_witness :
  ((enqueue_retune freq_b 1 full_queue).1 = QUEUE_FULL <->
   count full_queue = RETUNE_QUEUE_MAX) /\
  (count full_queue < RETUNE_QUEUE_MAX ->
   (enqueue_retune freq_b 1 full_queue).1 = count full_queue + 1 /\
   1 <= (enqueue_retune freq_b 1 full_queue).1 <= RETUNE_QUEUE_MAX) /\
  ((dequeue_retune None full_queue).1.1 = QUEUE_EMPTY <-> count full_queue = 0) /\
  (0 < count full_queue ->
   (dequeue_retune None full_queue).1.1 = count full_queue - 1 /\
   0 <= (dequeue_retune None full_queue).1.1 < RETUNE_QUEUE_MAX).
Proof.
  apply (return_codes_unambiguous freq_b 1 None full_queue).
  split; evaluated.
Defined.

(** X3.  The ring behaves as a first-in first-out list of at most 32
    entries.  Take a queue that satisfies the invariant and whose live
    entries, oldest first, are the list [l].  Any sequence of inserts and
    removes, in any order and with any arguments, returns on the ring the
    same values as on the list, and leaves a queue whose live entries are
    the list that results, whose head as seen by [peek_next_retune] is the
    first element of that list, and which satisfies the invariant again. *)
Theorem ring_refines_fifo
    (ops : list queue_op) (qu : queue) (l : list queue_entry) :
  queue_ok qu ->
  contents qu = Some <$> l ->
  (run_ops ops qu).1 = (fifo_ops ops l).1 /\
  contents (run_ops ops qu).2 = Some <$> (fifo_ops ops l).2 /\
  peek_next_retune (run_ops ops qu).2 = head (fifo_ops ops l).2 /\
  queue_ok (run_ops ops qu).2.
Proof.
  revert qu l. induction ops as [|op ops IH]; intros qu l Hok Hl; simpl.
  - split; [reflexivity|]. split; [exact Hl|].
    split; [apply peek_is_head; assumption | exact Hok].
  - destruct (run_op_fifo op qu l Hok Hl) as (Hr & Hc & Hok').
    destruct (IH _ _ Hok' Hc) as (Hrs & Hcs & Hpeek & Hoks).
    rewrite Hr, Hrs. auto.
Qed.

Lemma ring_refines_fifo_witness :
  let ops := [Insert freq_a 0; Insert freq_b 1; Remove None; Insert freq_a 1;
              Remove (Some zero_entry); Remove None; Remove None] in
  (run_ops ops pkt_retune_init).1 = [1; 2; 1; 2; 1; 0; QUEUE_EMPTY] /\
  contents (run_ops ops pkt_retune_init).2 = [] /\
  peek_next_retune (run_ops ops pkt_retune_init).2 = None /\
  queue_ok (run_ops ops pkt_retune_init).2.
Proof.
  refine (ring_refines_fifo
            [Insert freq_a 0; Insert freq_b 1; Remove None; Insert freq_a 1;
             Remove (Some zero_entry); Remove None; Remove None]
            pkt_retune_init [] _ _);
    [split; evaluated | reflexivity].
Defined.

(** X4.  Entries leave in the order they came.  On a queue that satisfies
    the invariant and holds the entries [l], oldest first, after a run of
    inserts that fits the ring the heads shown by [peek_next_retune]
    between successive [dequeue_retune(NULL)] calls are first the entries of
    [l], then the inserted ones in the order of the inserts, each with the
    module and the frequency specification it was inserted with. *)
Theorem drain_after_enqueue_is_fifo
    (qu : queue) (l : list queue_entry)
    (reqs : list (lms_freq * bladerf_module)) (n : nat) :
  queue_ok qu ->
  contents qu = Some <$> l ->
  count qu + Z.of_nat (length reqs) <= RETUNE_QUEUE_MAX ->
  (n <= length l + length reqs)%nat ->
  (drain_heads n (enqueue_all reqs qu).2).1 =
    Some <$> take n (l ++ (new_entry <$> reqs)).
Proof.
  intros Hok Hl Hroom Hn.
  pose proof (live_length qu l Hok Hl) as Hlen.
  destruct (enqueue_all_contents reqs qu Hok Hroom) as [Hok' Hc].
  destruct (enqueue_all_room reqs qu) as (_ & Hcount & _);
    [destruct Hok; lia | exact Hroom |].
  rewrite drain_heads_contents by (auto; lia).
  rewrite Hc, Hl, fmap_take, fmap_app, <- list_fmap_compose. reflexivity.
Qed.

Lemma drain_after_enqueue_is_fifo_witness :
  (drain_heads 3 (enqueue_all [(freq_b, 1); (freq_b, 0)] one_queue).2).1 =
    [Some (new_entry (freq_a, 0)); Some (new_entry (freq_b, 1));
     Some (new_entry (freq_b, 0))].
Proof.
  refine (drain_after_enqueue_is_fifo one_queue [new_entry (freq_a, 0)]
            [(freq_b, 1); (freq_b, 0)] 3 _ _ _ _);
    [split; evaluated | reflexivity | evaluated | evaluated].
Defined.

(** X5.  Under the queue invariant [peek_next_retune] returns [NULL]
    exactly when the count is 0; otherwise the pointer it returns is to a
    slot of the array, the one holding the oldest live entry. *)
Theorem peek_null_iff_empty (qu : queue) :
  queue_ok qu ->
  (peek_next_retune qu = None <-> count qu = 0) /\
  (count qu <> 0 ->
   exists e : queue_entry,
     peek_next_retune qu = Some e /\
     entries qu !! slot (rem_idx qu) = Some e /\
     head (contents qu) = Some (Some e)).
Proof.
  intros Hok. destruct (contents_live qu Hok) as [l Hl].
  pose proof (peek_is_head qu l Hok Hl) as Hpeek.
  pose proof (live_length qu l Hok Hl) as Hlen.
  assert (Hsome : count qu <> 0 ->
            exists e, peek_next_retune qu = Some e /\
                      entries qu !! slot (rem_idx qu) = Some e /\
                      head (contents qu) = Some (Some e)).
  { intros Hne. destruct l as [|x l']; [simpl in Hlen; lia|].
    simpl in Hpeek. exists x.
    split; [exact Hpeek|]. split; [|rewrite Hl; reflexivity].
    unfold peek_next_retune in Hpeek.
    destruct (Z.eqb_spec (count qu) 0); [contradiction | exact Hpeek]. }
  split; [split|exact Hsome].
  - intros Hnone. destruct (Z.eq_dec (count qu) 0) as [|Hne]; [assumption|].
    destruct (Hsome Hne) as (e & He & _). congruence.
  - intros Hempty. unfold peek_next_retune. rewrite Hempty. reflexivity.
Qed.

Lemma peek_null_iff_empty_witness :
  (peek_next_retune full_queue = None <-> count full_queue = 0) /\
  (count full_queue <> 0 ->
   exists e : queue_entry,
     peek_next_retune full_queue = Some e /\
     entries full_queue !! slot (rem_idx full_queue) = Some e /\
     head (contents full_queue) = Some (Some e)).
Proof. apply (peek_null_iff_empty full_queue). split; evaluated. Defined.

(** * Further properties of the scheduler step and the dispatcher *)

(** A store through the head pointer leaves the entries behind the head as
    they were. *)
Lemma alter_head_contents (g : queue_entry -> queue_entry) (qu : queue) :
  queue_ok qu ->
  tail (contents (mk_queue (count qu) (ins_idx qu) (rem_idx qu)
                    (alter g (slot (rem_idx qu)) (entries qu)))) =
  tail (contents qu).
Proof.
  intros [Hlen Hcount Hrem Hins]. unfold contents. simpl.
  destruct (Z.to_nat (count qu)) as [|n] eqn:Hn; [reflexivity|]. simpl.
  apply Forall_fmap_ext, Forall_forall. intros k Hk.
  apply elem_of_seq in Hk.
  apply list_lookup_alter_ne.
  rewrite <- (Z.mod_small (rem_idx qu) RETUNE_QUEUE_MAX) at 1 by exact Hrem.
  rewrite <- (Z.add_0_r (rem_idx qu)) at 1.
  intros Heq. symmetry in Heq. revert Heq.
  apply ring_slots_differ; unfold RETUNE_QUEUE_MAX in *; lia.
Qed.

Lemma alter_head_ok (g : queue_entry -> queue_entry) (qu : queue) :
  queue_ok qu ->
  queue_ok (mk_queue (count qu) (ins_idx qu) (rem_idx qu)
              (alter g (slot (rem_idx qu)) (entries qu))).
Proof.
  intros [Hlen Hcount Hrem Hins].
  split; simpl; try assumption. rewrite length_alter. exact Hlen.
Qed.

Lemma alter_head_peek (g : queue_entry -> queue_entry) (qu : queue) :
  peek_next_retune (mk_queue (count qu) (ins_idx qu) (rem_idx qu)
                      (alter g (slot (rem_idx qu)) (entries qu))) =
  g <$> peek_next_retune qu.
Proof.
  unfold peek_next_retune. simpl.
  destruct (count qu =? 0); [reflexivity|]. apply list_lookup_alter_eq.
Qed.

Section FirmwareFurther.
Context {hdr : Headers} {HW : Type} {devs : Devices HW}.

(** The queue that [apply_retune] leaves: the head's frequency
    specification as tuning returned it, nothing else touched. *)
Lemma apply_retune_queue (e : queue_entry) (s : nios HW) :
  q (apply_retune e s) =
  set_head_freq
    (lms_set_precalculated_frequency (module e) (freq e) (dev s)).1.2 (q s).
Proof.
  unfold apply_retune.
  destruct (lms_set_precalculated_frequency (module e) (freq e) (dev s))
    as [[status f'] d1]. simpl.
  destruct (status =? 0); simpl.
  - destruct (band_select (module e)
                (negb (Z.land (flags f') LMS_FREQ_FLAGS_LOW_BAND =? 0)) d1)
      as [status2 d2].
    destruct (status2 =? 0); simpl; [reflexivity|].
    apply error_count_after_increment.
  - apply error_count_after_increment.
Qed.

(** X6.  When the head entry is in state [ENTRY_STATE_NEW], one scheduler
    step makes it [ENTRY_STATE_SCHEDULED] and does nothing else: the
    module and the frequency specification of the head, every other slot,
    the count, both indices, the devices and the error counter are as
    before.  A further step changes nothing at all: the entry waits in
    [ENTRY_STATE_SCHEDULED]. *)
Theorem new_head_is_scheduled (s : nios HW) (e : queue_entry) :
  peek_next_retune (q s) = Some e ->
  state e = ENTRY_STATE_NEW ->
  let s' := pkt_retune_work s in
  peek_next_retune (q s') =
    Some (mk_queue_entry ENTRY_STATE_SCHEDULED (module e) (freq e)) /\
  (forall i : nat,
     i <> slot (rem_idx (q s)) -> entries (q s') !! i = entries (q s) !! i) /\
  count (q s') = count (q s) /\
  ins_idx (q s') = ins_idx (q s) /\
  rem_idx (q s') = rem_idx (q s) /\
  dev s' = dev s /\
  pkt_retune_error_count s' = pkt_retune_error_count s /\
  pkt_retune_work s' = s'.
Proof.
  intros Hpeek Hnew s'.
  assert (Hs' : s' = mk_nios (dev s)
                       (set_head_state ENTRY_STATE_SCHEDULED (q s))
                       (pkt_retune_error_count s)).
  { subst s'. unfold pkt_retune_work. rewrite Hpeek, Hnew. reflexivity. }
  assert (Hpeek' : peek_next_retune (q s') =
            Some (mk_queue_entry ENTRY_STATE_SCHEDULED (module e) (freq e))).
  { rewrite Hs'. simpl. unfold set_head_state.
    rewrite alter_head_peek, Hpeek. reflexivity. }
  repeat split; try (rewrite Hs'; reflexivity).
  - exact Hpeek'.
  - intros i Hi. rewrite Hs'. simpl.
    apply list_lookup_alter_ne. congruence.
  - unfold pkt_retune_work at 1. rewrite Hpeek'. reflexivity.
Qed.

(** X7.  Only a head in state [ENTRY_STATE_READY] makes the scheduler
    step touch the devices or remove anything.  With any other head, or
    with an empty queue, the devices, the count, both indices and the
    number of slots are as before; with an empty queue or a head in
    [ENTRY_STATE_SCHEDULED] the whole state is; and the error counter moves
    only for a head in [ENTRY_STATE_INVALID]. *)
Theorem only_ready_head_is_applied (s : nios HW) :
  (forall e, peek_next_retune (q s) = Some e -> state e <> ENTRY_STATE_READY) ->
  let s' := pkt_retune_work s in
  dev s' = dev s /\
  count (q s') = count (q s) /\
  ins_idx (q s') = ins_idx (q s) /\
  rem_idx (q s') = rem_idx (q s) /\
  length (entries (q s')) = length (entries (q s)) /\
  (peek_next_retune (q s) = None -> s' = s) /\
  (forall e, peek_next_retune (q s) = Some e ->
     state e = ENTRY_STATE_SCHEDULED -> s' = s) /\
  (forall e, peek_next_retune (q s) = Some e ->
     state e <> ENTRY_STATE_INVALID ->
     pkt_retune_error_count s' = pkt_retune_error_count s).
Proof.
  intros Hnot s'. subst s'. unfold pkt_retune_work.
  destruct (peek_next_retune (q s)) as [e|] eqn:Hpeek.
  - specialize (Hnot e eq_refl).
    destruct (state e) eqn:Hstate; try contradiction.
    + destruct (error_count_after_increment s) as (Hd & Hq & He).
      rewrite Hq.
      repeat split; try assumption; try discriminate;
        intros e' [= <-] Hx; congruence.
    + simpl. rewrite length_alter.
      repeat split; try discriminate;
        intros e' [= <-] Hx; congruence.
    + repeat split.
  - repeat split; discriminate.
Qed.

(** When the head entry is in state [ENTRY_STATE_READY] and the queue
    satisfies its invariant, the scheduler step leaves as live entries
    exactly those that stood behind the head, unchanged and in the same
    order, and the invariant holds again. *)
Lemma ready_head_exposes_the_next (s : nios HW) (e : queue_entry) :
  queue_ok (q s) ->
  peek_next_retune (q s) = Some e ->
  state e = ENTRY_STATE_READY ->
  contents (q (pkt_retune_work s)) = tail (contents (q s)) /\
  queue_ok (q (pkt_retune_work s)).
Proof.
  intros Hok Hpeek Hready.
  pose proof (peek_some_live _ _ Hpeek) as Hlive.
  unfold pkt_retune_work. rewrite Hpeek, Hready.
  unfold drop_head. simpl. rewrite apply_retune_queue.
  set (f' := (lms_set_precalculated_frequency (module e) (freq e) (dev s)).1.2).
  pose proof (alter_head_ok (fun x => mk_queue_entry (state x) (module x) f')
                (q s) Hok) as Hok1.
  pose proof (alter_head_contents
                (fun x => mk_queue_entry (state x) (module x) f') (q s) Hok)
    as Htail.
  fold (set_head_freq f' (q s)) in Hok1, Htail.
  destruct (dequeue_retune_contents None (set_head_freq f' (q s)) Hok1)
    as [Hok2 Hc]; [simpl; destruct Hok; lia|].
  split; [|exact Hok2].
  rewrite <- Htail, Hc. reflexivity.
Qed.

Lemma apply_retune_devices (e : queue_entry) (s : nios HW) :
  dev (apply_retune e s) = retune_devices (dev s) e.
Proof.
  unfold apply_retune, retune_devices.
  destruct (lms_set_precalculated_frequency (module e) (freq e) (dev s))
    as [[status f'] d1].
  destruct (status =? 0); simpl.
  - destruct (band_select (module e)
                (negb (Z.land (flags f') LMS_FREQ_FLAGS_LOW_BAND =? 0)) d1)
      as [status2 d2].
    destruct (status2 =? 0); simpl; [reflexivity|].
    apply error_count_after_increment.
  - apply error_count_after_increment.
Qed.

(** X8.  Ready entries are applied to the devices oldest first, once each.
    On a queue that satisfies the invariant and holds the entries [l],
    oldest first, of which the first [n] are in state [ENTRY_STATE_READY],
    [n] scheduler steps leave the devices as tuning and band selection for
    the first entry, then for the second, and so on up to the [n]-th, leave
    them; the queue then holds the remaining entries of [l], unchanged and
    in order, and its count is [n] less. *)
Theorem ready_entries_are_applied_in_order
    (n : nat) (s : nios HW) (l : list queue_entry) :
  queue_ok (q s) ->
  contents (q s) = Some <$> l ->
  (n <= length l)%nat ->
  Forall (fun e => state e = ENTRY_STATE_READY) (take n l) ->
  let s' := run_events (replicate n Work) s in
  dev s' = foldl retune_devices (dev s) (take n l) /\
  contents (q s') = Some <$> drop n l /\
  count (q s') = count (q s) - Z.of_nat n /\
  queue_ok (q s').
Proof.
  revert s l. induction n as [|n IH]; intros s l Hok Hl Hn Hready; simpl.
  - rewrite drop_0. split; [reflexivity|]. split; [exact Hl|].
    split; [lia | exact Hok].
  - destruct l as [|e l']; [simpl in Hn; lia|].
    simpl in Hn, Hready. apply Forall_cons in Hready as [He Hready].
    pose proof (peek_is_head _ _ Hok Hl) as Hpeek. simpl in Hpeek.
    destruct (ready_head_exposes_the_next s e Hok Hpeek He) as [Hc Hok1].
    rewrite Hl in Hc. simpl in Hc.
    assert (Hdev : dev (pkt_retune_work s) = retune_devices (dev s) e).
    { unfold pkt_retune_work. rewrite Hpeek, He. unfold drop_head. simpl.
      apply apply_retune_devices. }
    pose proof (live_length _ _ Hok Hl) as Hlen.
    pose proof (live_length _ _ Hok1 Hc) as Hlen1. simpl in Hlen.
    destruct (IH (pkt_retune_work s) l' Hok1 Hc ltac:(lia) Hready)
      as (Hd & Hc' & Hcount & Hok').
    rewrite Hdev in Hd.
    split; [exact Hd|]. split; [exact Hc'|]. split; [lia | exact Hok'].
Qed.

(** X9.  Both entry points of the file keep the queue invariant, for any
    request, any state of the head and any behaviour of the devices. *)
Theorem entry_points_keep_invariant (b : retune_req) (s : nios HW) :
  queue_ok (q s) ->
  queue_ok (q (pkt_retune_work s)) /\ queue_ok (q (pkt_retune b s).2).
Proof.
  intros Hok. split.
  - unfold pkt_retune_work.
    destruct (peek_next_retune (q s)) as [e|] eqn:Hpeek; [|exact Hok].
    destruct (state e) eqn:Hstate.
    + destruct (error_count_after_increment s) as (_ & Hq & _).
      rewrite Hq. exact Hok.
    + simpl. apply alter_head_ok. exact Hok.
    + exact Hok.
    + unfold drop_head. simpl. rewrite apply_retune_queue.
      destruct (contents_live _ (alter_head_ok
                  (fun x => mk_queue_entry (state x) (module x)
                     (lms_set_precalculated_frequency (module e) (freq e)
                        (dev s)).1.2) (q s) Hok)) as [l Hl].
      apply (run_op_fifo (Remove None) _ l); [|exact Hl].
      apply alter_head_ok. exact Hok.
  - destruct (Z.eq_dec (req_timestamp b) NIOS_PKT_RETUNE_NOW) as [Hnow|Hlater].
    + unfold pkt_retune. rewrite Hnow, Z.eqb_refl.
      destruct ((req_module b =? BLADERF_MODULE_RX)
                || (req_module b =? BLADERF_MODULE_TX)); [|exact Hok].
      destruct (time_tamer_read (req_module b) (dev s)) as [retune_start d1].
      destruct (lms_set_precalculated_frequency (req_module b)
                  (request_freq b) d1) as [[status f1] d2].
      destruct (status =? 0); simpl; [|exact Hok].
      destruct (band_select (req_module b) (req_low_band b) d2)
        as [status2 d3].
      destruct (status2 =? 0); simpl; [|exact Hok].
      destruct (time_tamer_read (req_module b) d3) as [retune_end d4].
      exact Hok.
    + rewrite pkt_retune_deferred by exact Hlater. simpl.
      destruct (contents_live _ Hok) as [l Hl].
      apply (run_op_fifo (Insert (request_freq b) (req_module b)) _ l Hok Hl).
Qed.

(** Two flags that fit the byte, stored one after the other. *)
Lemma store_two_flags (a b : Z) :
  is_u8 a -> is_u8 b -> u8 (Z.lor (u8 a) b) = Z.lor a b.
Proof.
  intros Ha Hb. apply Z.bits_inj'. intros n Hn.
  assert (Han : Z.testbit a n = (n <? 8) && Z.testbit a n).
  { rewrite <- testbit_u8, u8_fits by assumption. reflexivity. }
  assert (Hbn : Z.testbit b n = (n <? 8) && Z.testbit b n).
  { rewrite <- testbit_u8, u8_fits by assumption. reflexivity. }
  rewrite testbit_u8, !Z.lor_spec, testbit_u8 by lia.
  rewrite Han, Hbn. destruct (n <? 8), (Z.testbit a n), (Z.testbit b n);
    reflexivity.
Qed.

Lemma land_lor_same_l (a b : Z) : Z.land (Z.lor a b) a = a.
Proof.
  apply Z.bits_inj'. intros n _. rewrite Z.land_spec, Z.lor_spec.
  destruct (Z.testbit a n), (Z.testbit b n); reflexivity.
Qed.

Lemma land_lor_same_r (a b : Z) : Z.land (Z.lor a b) b = b.
Proof. rewrite Z.lor_comm. apply land_lor_same_l. Qed.

(** X10.  The flags of the frequency specification built from a request
    give back the two flags of the request: the low-band test that the
    scheduler step applies to the flags yields the low-band flag of the
    request, the same test with the force-capacitance mask yields its
    quick-tune flag, the four synthesizer fields are those of the request
    and the capacitance result starts as 0xff.  The two masks are taken to
    be separate non-zero bits of the flags byte. *)
Theorem request_flags_round_trip (b : retune_req) :
  is_u8 LMS_FREQ_FLAGS_LOW_BAND -> LMS_FREQ_FLAGS_LOW_BAND <> 0 ->
  is_u8 LMS_FREQ_FLAGS_FORCE_VCOCAP -> LMS_FREQ_FLAGS_FORCE_VCOCAP <> 0 ->
  Z.land LMS_FREQ_FLAGS_LOW_BAND LMS_FREQ_FLAGS_FORCE_VCOCAP = 0 ->
  let f := request_freq b in
  negb (Z.land (flags f) LMS_FREQ_FLAGS_LOW_BAND =? 0) = req_low_band b /\
  negb (Z.land (flags f) LMS_FREQ_FLAGS_FORCE_VCOCAP =? 0) = req_quick_tune b /\
  nint f = req_nint b /\ nfrac f = req_nfrac b /\
  freqsel f = req_freqsel b /\ vcocap f = req_vcocap b /\
  vcocap_result f = 0xff.
Proof.
  intros Hl Hl0 Hf Hf0 Hdisj f. subst f. unfold request_freq. simpl.
  assert (Hdisj' : Z.land LMS_FREQ_FLAGS_FORCE_VCOCAP LMS_FREQ_FLAGS_LOW_BAND = 0)
    by (rewrite Z.land_comm; exact Hdisj).
  assert (Hyes : forall x : Z, x <> 0 -> negb (x =? 0) = true).
  { intros x Hx. destruct (Z.eqb_spec x 0); [contradiction | reflexivity]. }
  destruct (req_low_band b), (req_quick_tune b);
    rewrite ?store_two_flags, ?Z.lor_0_l, ?u8_fits by assumption;
    rewrite ?land_lor_same_l, ?land_lor_same_r, ?Z.land_diag, ?Z.land_0_l,
      ?Hdisj, ?Hdisj';
    rewrite ?(Hyes _ Hl0), ?(Hyes _ Hf0);
    repeat split.
Qed.

(** X11.  The flags byte of every response, in terms of what happened.
    The success flag is set exactly when the retune was carried out (an
    immediate request for a valid module whose tuning and band selection
    both returned 0) or queued (a deferred request that found the count
    below 32); the duration-valid flag is set exactly when an immediate
    request for a valid module had its tuning return 0; no other bit of the
    byte is ever set.  The two flags are taken to be separate non-zero bits
    of the byte, and the count to be a [uint8_t] value. *)
Theorem response_flags_say_what_happened (b : retune_req) (s : nios HW) :
  flags_separate ->
  is_u8 (count (q s)) ->
  let m := req_module b in
  let now := req_timestamp b =? NIOS_PKT_RETUNE_NOW in
  let valid := (m =? BLADERF_MODULE_RX) || (m =? BLADERF_MODULE_TX) in
  let tuned :=
    lms_set_precalculated_frequency m (request_freq b)
      (time_tamer_read m (dev s)).2 in
  let banded := band_select m (req_low_band b) tuned.2 in
  let tuned_ok := now && valid && (tuned.1.1 =? 0) in
  let accepted :=
    if now then tuned_ok && (banded.1 =? 0)
    else count (q s) <? RETUNE_QUEUE_MAX in
  let fl := resp_flags (pkt_retune b s).1 in
  fl = Z.lor (if accepted then NIOS_PKT_RETUNERESP_FLAG_SUCCESS else 0)
             (if tuned_ok then NIOS_PKT_RETUNERESP_FLAG_TSVTUNE_VALID else 0) /\
  (flag_set fl NIOS_PKT_RETUNERESP_FLAG_SUCCESS <-> accepted = true) /\
  (flag_set fl NIOS_PKT_RETUNERESP_FLAG_TSVTUNE_VALID <-> tuned_ok = true).
Proof.
  intros [Hs Hs0 Hv Hv0 Hdisj] Hcount m now valid tuned banded tuned_ok
    accepted fl.
  assert (Hfl : fl =
            Z.lor (if accepted then NIOS_PKT_RETUNERESP_FLAG_SUCCESS else 0)
              (if tuned_ok then NIOS_PKT_RETUNERESP_FLAG_TSVTUNE_VALID else 0)).
  { subst fl accepted tuned_ok banded tuned valid now m. unfold pkt_retune.
    destruct (Z.eqb_spec (req_timestamp b) NIOS_PKT_RETUNE_NOW) as [Hnow|Hlater].
    - destruct ((req_module b =? BLADERF_MODULE_RX)
                || (req_module b =? BLADERF_MODULE_TX)); simpl.
      + destruct (time_tamer_read (req_module b) (dev s)) as [start d1]. simpl.
        destruct (lms_set_precalculated_frequency (req_module b)
                    (request_freq b) d1) as [[status f1] d2]. simpl.
        destruct (status =? 0) eqn:Hst; simpl.
        * destruct (band_select (req_module b) (req_low_band b) d2)
            as [status2 d3]. simpl.
          destruct (status2 =? 0) eqn:Hst2; simpl.
          -- destruct (time_tamer_read (req_module b) d3) as [stop d4]. simpl.
             unfold respond. simpl. apply store_two_flags; assumption.
          -- unfold respond. rewrite Hst2. simpl.
             rewrite clear_one_of_two by assumption. reflexivity.
        * unfold respond. rewrite Hst. simpl. apply clear_only_flag.
      + unfold respond. simpl. apply clear_only_flag.
    - simpl.
      destruct (Z.ltb_spec (count (q s)) RETUNE_QUEUE_MAX) as [Hroom|Hfull].
      + rewrite enqueue_retune_room by (unfold is_u8 in Hcount; lia).
        destruct (Z.eqb_spec (count (q s) + 1) QUEUE_FULL) as [Heq|_].
        { unfold QUEUE_FULL, RETUNE_QUEUE_MAX in *. lia. }
        unfold respond. simpl. rewrite Z.lor_0_r. apply u8_fits. exact Hs.
      + unfold enqueue_retune.
        destruct (Z.leb_spec RETUNE_QUEUE_MAX (count (q s))); [|lia].
        unfold respond. simpl. apply clear_only_flag. }
  split; [exact Hfl|]. rewrite Hfl. unfold flag_set.
  assert (Hvs : Z.land NIOS_PKT_RETUNERESP_FLAG_TSVTUNE_VALID
                  NIOS_PKT_RETUNERESP_FLAG_SUCCESS = 0)
    by (rewrite Z.land_comm; exact Hdisj).
  destruct accepted, tuned_ok;
    rewrite ?Z.lor_0_l, ?Z.lor_0_r, ?land_lor_same_l, ?land_lor_same_r,
      ?Z.land_diag, ?Z.land_0_l, ?Hdisj, ?Hvs;
    repeat split; intros; congruence.
Qed.

(** X12.  The other fields of every response, and what the request did to
    the state.  The duration is the difference of the two timer readings,
    modulo 2^64, when an immediate request for a valid module had tuning and
    band selection both return 0, and 0 in every other case.  The
    capacitance result is the one tuning left for an immediate request with
    a valid module, and 0xff otherwise.  A deferred request and a request for
    an invalid module leave the devices as they were; no request moves the
    error counter. *)
Theorem response_fields_say_what_happened (b : retune_req) (s : nios HW) :
  let m := req_module b in
  let now := req_timestamp b =? NIOS_PKT_RETUNE_NOW in
  let valid := (m =? BLADERF_MODULE_RX) || (m =? BLADERF_MODULE_TX) in
  let started := time_tamer_read m (dev s) in
  let tuned := lms_set_precalculated_frequency m (request_freq b) started.2 in
  let banded := band_select m (req_low_band b) tuned.2 in
  let stopped := time_tamer_read m banded.2 in
  let done := now && valid && (tuned.1.1 =? 0) && (banded.1 =? 0) in
  let r := pkt_retune b s in
  resp_duration r.1 = (if done then u64 (stopped.1 - started.1) else 0) /\
  resp_vcocap_result r.1 =
    (if now && valid then vcocap_result tuned.1.2 else 0xff) /\
  dev r.2 =
    (if now && valid
     then if tuned.1.1 =? 0
          then if banded.1 =? 0 then stopped.2 else banded.2
          else tuned.2
     else dev s) /\
  pkt_retune_error_count r.2 = pkt_retune_error_count s.
Proof.
  intros m now valid started tuned banded stopped done r.
  subst r done stopped banded tuned started valid now m. unfold pkt_retune.
  destruct (Z.eqb_spec (req_timestamp b) NIOS_PKT_RETUNE_NOW) as [Hnow|Hlater].
  - destruct ((req_module b =? BLADERF_MODULE_RX)
              || (req_module b =? BLADERF_MODULE_TX)); simpl.
    + destruct (time_tamer_read (req_module b) (dev s)) as [start d1]. simpl.
      destruct (lms_set_precalculated_frequency (req_module b)
                  (request_freq b) d1) as [[status f1] d2]. simpl.
      destruct (status =? 0); simpl; [|auto].
      destruct (band_select (req_module b) (req_low_band b) d2)
        as [status2 d3]. simpl.
      destruct (status2 =? 0); simpl; [|auto].
      destruct (time_tamer_read (req_module b) d3) as [stop d4]. simpl. auto.
    + auto.
  - simpl.
    destruct (enqueue_retune (request_freq b) (req_module b) (q s)). simpl.
    auto.
Qed.

(** *** Runs of the two entry points *)

Lemma never_ready_init : never_ready pkt_retune_init.
Proof.
  split; try reflexivity.
  - simpl. unfold RETUNE_QUEUE_MAX. lia.
  - intros i e He. unfold pkt_retune_init in He. cbn [entries] in He.
    apply lookup_replicate in He as [-> _].
    split; [discriminate | simpl; lia].
Qed.

Lemma n_deferred_nonneg (evs : list event) : 0 <= n_deferred evs.
Proof.
  induction evs as [|ev evs IH]; simpl; [lia|].
  destruct (is_deferred ev); lia.
Qed.

(** An immediate request, whatever its module: the queue and the error
    counter are untouched, and the devices end where they would from any
    state with the same devices. *)
Lemma pkt_retune_now_frame (b : retune_req) (s s0 : nios HW) :
  req_timestamp b = NIOS_PKT_RETUNE_NOW ->
  dev s = dev s0 ->
  q (pkt_retune b s).2 = q s /\
  pkt_retune_error_count (pkt_retune b s).2 = pkt_retune_error_count s /\
  dev (pkt_retune b s).2 = dev (pkt_retune b s0).2.
Proof.
  intros Hnow Hdev. unfold pkt_retune. rewrite Hnow, Z.eqb_refl, Hdev.
  destruct ((req_module b =? BLADERF_MODULE_RX)
            || (req_module b =? BLADERF_MODULE_TX)); [|auto].
  destruct (time_tamer_read (req_module b) (dev s0)) as [start d1].
  destruct (lms_set_precalculated_frequency (req_module b) (request_freq b) d1)
    as [[status f1] d2].
  destruct (status =? 0); simpl; [|auto].
  destruct (band_select (req_module b) (req_low_band b) d2) as [status2 d3].
  destruct (status2 =? 0); simpl; [|auto].
  destruct (time_tamer_read (req_module b) d3) as [stop d4]. auto.
Qed.

Lemma never_ready_enqueue f m qu :
  never_ready qu ->
  never_ready (enqueue_retune f m qu).2 /\
  count (enqueue_retune f m qu).2 = Z.min RETUNE_QUEUE_MAX (count qu + 1).
Proof.
  intros [Hlen Hrem Hcount Hins Hstates].
  destruct (Z.lt_ge_cases (count qu) RETUNE_QUEUE_MAX) as [Hroom|Hfull].
  - rewrite enqueue_retune_room by lia. simpl. split; [|lia].
    assert (Hslot : slot (ins_idx qu) = Z.to_nat (count qu)).
    { unfold slot. rewrite Hins, Z.mod_small by lia. reflexivity. }
    split; simpl.
    + rewrite length_insert. exact Hlen.
    + exact Hrem.
    + lia.
    + rewrite Hins, Z.add_mod_idemp_l by (unfold RETUNE_QUEUE_MAX; lia).
      reflexivity.
    + intros i e He. rewrite Hslot in He.
      destruct (decide (i = Z.to_nat (count qu))) as [->|Hne].
      * rewrite list_lookup_insert_eq in He
          by (rewrite Hlen; unfold RETUNE_QUEUE_MAX in *; lia).
        injection He as <-. simpl. split; discriminate.
      * rewrite list_lookup_insert_ne in He by congruence.
        destruct (Hstates i e He) as [Hr Hi].
        split; [exact Hr|]. intros Hlt. apply Hi. lia.
  - unfold enqueue_retune.
    destruct (Z.leb_spec RETUNE_QUEUE_MAX (count qu)); [|lia]. simpl.
    split; [split; assumption | lia].
Qed.

Lemma never_ready_work (s : nios HW) :
  never_ready (q s) ->
  never_ready (q (pkt_retune_work s)) /\
  count (q (pkt_retune_work s)) = count (q s) /\
  dev (pkt_retune_work s) = dev s /\
  pkt_retune_error_count (pkt_retune_work s) = pkt_retune_error_count s.
Proof.
  intros Hnr. pose proof Hnr as [Hlen Hrem Hcount Hins Hstates].
  unfold pkt_retune_work, peek_next_retune.
  destruct (Z.eqb_spec (count (q s)) 0) as [Hempty|Hlive]; [auto|].
  rewrite Hrem.
  destruct (entries (q s) !! slot 0) as [e|] eqn:He; [|auto].
  destruct (Hstates _ _ He) as [Hr Hi].
  specialize (Hi ltac:(unfold slot; simpl; lia)).
  destruct (state e) eqn:Hstate; try contradiction; [|auto].
  simpl. split; [|auto]. split; simpl; try assumption.
  - rewrite length_alter. exact Hlen.
  - intros i e' He'. rewrite list_lookup_alter in He'.
    destruct (decide (slot (rem_idx (q s)) = i)) as [Heq|Hne].
    + destruct (entries (q s) !! slot (rem_idx (q s))); [|discriminate].
      injection He' as <-. simpl. split; discriminate.
    + apply (Hstates i e' He').
Qed.

Lemma never_ready_handle (ev : event) (s s0 : nios HW) :
  never_ready (q s) -> dev s = dev s0 ->
  never_ready (q (handle ev s)) /\
  count (q (handle ev s)) =
    Z.min RETUNE_QUEUE_MAX (count (q s) + (if is_deferred ev then 1 else 0)) /\
  pkt_retune_error_count (handle ev s) = pkt_retune_error_count s /\
  dev (handle ev s) = dev (run_events (immediate_only [ev]) s0).
Proof.
  intros Hnr Hdev. pose proof (nr_count _ Hnr) as Hcount.
  destruct ev as [b|]; simpl.
  - destruct (Z.eqb_spec (req_timestamp b) NIOS_PKT_RETUNE_NOW) as [Hnow|Hlater].
    + destruct (pkt_retune_now_frame b s s0 Hnow Hdev) as (Hq & He & Hd).
      rewrite Hq. split; [exact Hnr|]. split; [simpl; lia|].
      split; [exact He | exact Hd].
    + rewrite pkt_retune_deferred by exact Hlater. simpl.
      destruct (never_ready_enqueue (request_freq b) (req_module b) (q s) Hnr)
        as [Hnr' Hc].
      auto.
  - destruct (never_ready_work s Hnr) as (Hnr' & Hc & Hd & He).
    split; [exact Hnr'|]. split; [simpl; lia|].
    split; [exact He | congruence].
Qed.

Lemma never_ready_run (evs : list event) : forall s s0 : nios HW,
  never_ready (q s) -> dev s = dev s0 ->
  never_ready (q (run_events evs s)) /\
  count (q (run_events evs s)) =
    Z.min RETUNE_QUEUE_MAX (count (q s) + n_deferred evs) /\
  pkt_retune_error_count (run_events evs s) = pkt_retune_error_count s /\
  dev (run_events evs s) = dev (run_events (immediate_only evs) s0).
Proof.
  induction evs as [|ev evs IH]; intros s s0 Hnr Hdev.
  - simpl. pose proof (nr_count _ Hnr).
    split; [exact Hnr|]. split; [lia|]. split; [reflexivity | exact Hdev].
  - change (run_events (ev :: evs) s) with (run_events evs (handle ev s)).
    change (n_deferred (ev :: evs))
      with ((if is_deferred ev then 1 else 0) + n_deferred evs).
    destruct (never_ready_handle ev s s0 Hnr Hdev) as (Hnr' & Hc & He & Hd).
    pose proof (n_deferred_nonneg evs) as Hn.
    pose proof (nr_count _ Hnr) as Hcount.
    assert (Hstep : immediate_only (ev :: evs) =
                    immediate_only [ev] ++ immediate_only evs).
    { destruct ev as [b|]; simpl; [|reflexivity].
      destruct (req_timestamp b =? NIOS_PKT_RETUNE_NOW); reflexivity. }
    assert (Hrun : forall l1 l2 (t : nios HW),
              run_events (l1 ++ l2) t = run_events l2 (run_events l1 t)).
    { induction l1 as [|x l1 IH1]; intros l2 t; simpl; [reflexivity|].
      apply IH1. }
    destruct (IH (handle ev s) (run_events (immediate_only [ev]) s0) Hnr' Hd)
      as (Hnr'' & Hc' & He' & Hd').
    rewrite Hstep, Hrun.
    split; [exact Hnr''|]. split; [|split; [congruence | exact Hd']].
    rewrite Hc', Hc. destruct (is_deferred ev); lia.
Qed.

(** X13.  As the file stands, a deferred retune is never applied.  In any
    run of the two entry points from the state [pkt_retune_init] leaves,
    with nothing outside the file writing to an entry, no entry is ever
    removed: the count is the number of deferred requests so far, capped at
    32, and the removal index stays 0; the error counter stays 0; and the
    devices end in the state the immediate requests of the run alone would
    have left them in.  So the deferred requests after the 32nd are all
    refused, however often the scheduler step runs. *)
Theorem deferred_retunes_stay_queued (d : HW) (evs : list event) :
  let s := run_events evs (boot d) in
  count (q s) = Z.min RETUNE_QUEUE_MAX (n_deferred evs) /\
  rem_idx (q s) = 0 /\
  pkt_retune_error_count s = 0 /\
  dev s = dev (run_events (immediate_only evs) (boot d)) /\
  queue_ok (q s).
Proof.
  intros s. subst s.
  destruct (never_ready_run evs (boot d) (boot d) never_ready_init eq_refl)
    as ([Hlen Hrem Hcount Hins Hstates] & Hc & He & Hd).
  split; [exact Hc|]. split; [exact Hrem|]. split; [exact He|].
  split; [exact Hd|].
  split; try assumption; [rewrite Hrem; unfold RETUNE_QUEUE_MAX; lia|].
  rewrite Hrem, Z.add_0_l. exact Hins.
Qed.

End FirmwareFurther.

(** ** The further theorems at concrete inputs *)

Section BenchFurther.
#[local] Existing Instance bench_headers.
#[local] Existing Instance bench_devices.

(** One step on a queue whose single entry is new. *)
Lemma new_head_is_scheduled_witness :
  let s := mk_nios bench_ok one_queue 0 in
  let s' := pkt_retune_work s in
  peek_next_retune (q s') =
    Some (mk_queue_entry ENTRY_STATE_SCHEDULED 0 freq_a) /\
  (forall i : nat,
     i <> slot (rem_idx (q s)) -> entries (q s') !! i = entries (q s) !! i) /\
  count (q s') = 1 /\
  ins_idx (q s') = 1 /\
  rem_idx (q s') = 0 /\
  dev s' = bench_ok /\
  pkt_retune_error_count s' = 0 /\
  pkt_retune_work s' = s'.
Proof.
  refine (new_head_is_scheduled (mk_nios bench_ok one_queue 0)
            (new_entry (freq_a, 0)) _ _); reflexivity.
Defined.

(** One step on the same queue, whose head is not ready. *)
Lemma only_ready_head_is_applied_witness :
  let s := mk_nios bench_tune_fails one_queue 3 in
  let s' := pkt_retune_work s in
  dev s' = bench_tune_fails /\
  count (q s') = 1 /\
  ins_idx (q s') = 1 /\
  rem_idx (q s') = 0 /\
  length (entries (q s')) = 32%nat /\
  (peek_next_retune (q s) = None -> s' = s) /\
  (forall e, peek_next_retune (q s) = Some e ->
     state e = ENTRY_STATE_SCHEDULED -> s' = s) /\
  (forall e, peek_next_retune (q s) = Some e ->
     state e <> ENTRY_STATE_INVALID ->
     pkt_retune_error_count s' = 3).
Proof.
  refine (only_ready_head_is_applied (mk_nios bench_tune_fails one_queue 3) _).
  intros e He. vm_compute in He. injection He as <-. discriminate.
Defined.

(** Two steps on a queue of two ready entries, on a bench whose tuning
    fails: the devices are those of the bench, nothing is left queued. *)
Lemma ready_entries_are_applied_in_order_witness :
  let s := mk_nios bench_tune_fails all_ready_queue 0 in
  let s' := run_events [Work; Work] s in
  dev s' =
    retune_devices
      (retune_devices bench_tune_fails
         (mk_queue_entry ENTRY_STATE_READY 0 freq_a))
      (mk_queue_entry ENTRY_STATE_READY 1 freq_b) /\
  contents (q s') = [] /\
  count (q s') = 0 /\
  queue_ok (q s').
Proof.
  refine (ready_entries_are_applied_in_order 2
            (mk_nios bench_tune_fails all_ready_queue 0)
            [mk_queue_entry ENTRY_STATE_READY 0 freq_a;
             mk_queue_entry ENTRY_STATE_READY 1 freq_b] _ _ _ _);
    [split; evaluated | reflexivity | evaluated
    | repeat constructor].
Defined.

Lemma entry_points_keep_invariant_witness :
  let s := mk_nios bench_band_fails ready_two_queue 0 in
  queue_ok (q (pkt_retune_work s)) /\
  queue_ok (q (pkt_retune req_later s).2).
Proof.
  apply (entry_points_keep_invariant req_later
           (mk_nios bench_band_fails ready_two_queue 0)).
  split; evaluated.
Defined.

(** A request with the low-band flag and without the quick-tune flag. *)
Lemma request_flags_round_trip_witness :
  let f := request_freq req_later in
  negb (Z.land (flags f) LMS_FREQ_FLAGS_LOW_BAND =? 0) = true /\
  negb (Z.land (flags f) LMS_FREQ_FLAGS_FORCE_VCOCAP =? 0) = false /\
  nint f = 70 /\ nfrac f = 1000 /\ freqsel f = 44 /\ vcocap f = 20 /\
  vcocap_result f = 0xff.
Proof.
  refine (request_flags_round_trip req_later _ _ _ _ _); evaluated.
Defined.

(** An immediate request whose tuning returns 0 and whose band selection
    fails: the flags byte holds the duration-valid flag alone. *)
Lemma response_flags_say_what_happened_witness :
  let fl :=
    resp_flags (pkt_retune req_now (mk_nios bench_band_fails one_queue 0)).1 in
  fl = Z.lor 0 NIOS_PKT_RETUNERESP_FLAG_TSVTUNE_VALID /\
  (flag_set fl NIOS_PKT_RETUNERESP_FLAG_SUCCESS <-> false = true) /\
  (flag_set fl NIOS_PKT_RETUNERESP_FLAG_TSVTUNE_VALID <-> true = true).
Proof.
  refine (response_flags_say_what_happened req_now
            (mk_nios bench_band_fails one_queue 0) bench_flags_separate _).
  evaluated.
Defined.

End BenchFurther.
